(** * go-exactonline: the REST client pipeline and the EDM timestamp codec

    A shallow embedding of [rest/client.go] (package [rest]) and of the
    [DateTime] codec (package [edm]), with the properties their
    specification states about them.

    Conventions of the embedding.
    - Go's [int], [int64] and [time.Duration] are [Z]; 64-bit wrap-around is
      written out with [wrap64] where the source multiplies.
    - Go strings are [string] (sequences of bytes).
    - A Go [error] result is [option error] ([None] is [nil]); a pair
      [(value, error)] of which exactly one is meaningful is a sum.
    - A call that can panic returns an [outcome].
    - Functions of the Go standard library are embedded by what they do on
      the values the repository passes to them; each one says so. *)

From Stdlib Require Import ZArith Lia String Ascii List Bool.
From stdpp Require Import base option strings list gmap pretty.

Set Warnings "-register-all".

Local Open Scope string_scope.
Local Open Scope Z_scope.

(** ** Errors

    The dynamic [error] values that can reach a caller of this package. *)
Inductive error : Type :=
| ErrTransport (msg : string)      (* failure reported by [http.Client.Do] *)
| ErrAPI (status : Z)              (* failure reported by [CheckResponse] *)
| ErrEOF                           (* [io.EOF] *)
| ErrUnexpectedEOF                 (* [io.ErrUnexpectedEOF] *)
| ErrRead (msg : string)           (* the body stream failed while being read *)
| ErrClose (msg : string)          (* the body stream failed while being closed *)
| ErrSyntax                        (* [*json.SyntaxError], [strconv.ErrSyntax] *)
| ErrUnmarshalType (value gotype : string)  (* [*json.UnmarshalTypeError] *)
| ErrRange                         (* [strconv.ErrRange] *)
| ErrEncode (msg : string)         (* failure of [json.Encoder.Encode] *)
| ErrNewRequest (msg : string).    (* failure of [http.NewRequest] *)

(** Outcome of a call that may panic instead of returning. *)
Inductive outcome (A : Type) : Type :=
| Returns (a : A)
| Panics (msg : string).
Arguments Returns {A} a.
Arguments Panics {A} msg.

(** ** JSON documents

    [encoding/json] first scans a complete value and then stores it in the
    destination; the embedding starts from the scanned value. Number
    literals are kept apart by whether they are plain integers. *)
Module Json.

Inductive json : Type :=
| JNull
| JBool (b : bool)
| JNum (n : Z)
| JFrac (lit : string)
| JStr (s : string)
| JArr (elems : list json)
| JObj (members : list (string * json)).

(** The name [encoding/json] gives a value's kind in an
    [UnmarshalTypeError]. *)
Definition kind_name (j : json) : string :=
  match j with
  | JNull => "null"
  | JBool _ => "bool"
  | JNum _ | JFrac _ => "number"
  | JStr _ => "string"
  | JArr _ => "array"
  | JObj _ => "object"
  end.

(** [d.saveError]: only the first error of a decode is kept. *)
Definition saveError (saved new : option error) : option error :=
  match saved with
  | Some e => Some e
  | None => new
  end.

(** Case folding of a member name, as [foldName] does it: ASCII letters go
    to upper case, and the two non-ASCII runes whose simple fold reaches an
    ASCII letter go with them: U+017F (long s, bytes C5 BF) to [S] and
    U+212A (Kelvin sign, bytes E2 84 AA) to [K]. *)
Definition upper (a : ascii) : ascii :=
  let n := nat_of_ascii a in
  if ((97 <=? n) && (n <=? 122))%nat then ascii_of_nat (n - 32) else a.

Fixpoint foldName (s : string) : string :=
  match s with
  | EmptyString => EmptyString
  | String a r =>
    match r with
    | String b r' =>
      if ((nat_of_ascii a =? 197) && (nat_of_ascii b =? 191))%nat
      then String "S" (foldName r')
      else
        match r' with
        | String c r'' =>
          if ((nat_of_ascii a =? 226) && (nat_of_ascii b =? 132)
              && (nat_of_ascii c =? 170))%nat
          then String "K" (foldName r'')
          else String (upper a) (foldName r)
        | EmptyString => String (upper a) (foldName r)
        end
    | EmptyString => String (upper a) EmptyString
    end
  end.

(** Whether the member name [key] selects the struct field tagged [name]:
    an exact match, or else a match up to case folding. *)
Definition field_matches (name key : string) : bool :=
  String.eqb key name || String.eqb (foldName key) (foldName name).

(** [json.Unmarshal(text, &value)] for [value] a Go [string]. [text] is
    [None] when the bytes are not one well-formed JSON value. *)
Definition Unmarshal_string (text : option json) (value : string)
  : string * option error :=
  match text with
  | None => (value, Some ErrSyntax)
  | Some (JStr s) => (s, None)
  | Some JNull => (value, None)
  | Some j => (value, Some (ErrUnmarshalType (kind_name j) "string"))
  end.

End Json.

(** ** Package [time], [regexp] and [strconv], as far as the codec uses them *)
Module Std.

Definition maxInt64 : Z := 9223372036854775807.

(** Two's complement wrap-around of a 64-bit signed result. *)
Definition wrap64 (z : Z) : Z := (z + 2 ^ 63) mod 2 ^ 64 - 2 ^ 63.

(** [time.Millisecond], a [Duration] in nanoseconds. *)
Definition Millisecond : Z := 1000000.

(** Seconds from January 1 of year 1 to the Unix epoch
    ([unixToInternal]). *)
Definition unixToInternal : Z := 62135596800.

(** A [time.Time]: seconds since January 1 of year 1 (UTC) and the
    nanoseconds within that second. The zero value is the unset time. *)
Record Time : Type := mkTime { ext : Z; nsec : Z }.

Definition Time_zero : Time := mkTime 0 0.

Definition IsZero (t : Time) : bool := (ext t =? 0) && (nsec t =? 0).

(** [time.Unix(sec, nsec)]; Go's [/] truncates, as [Z.quot] does. *)
Definition time_Unix (sec nsec : Z) : Time :=
  if (nsec <? 0) || (1000000000 <=? nsec) then
    let n := Z.quot nsec 1000000000 in
    let sec := sec + n in
    let nsec := nsec - n * 1000000000 in
    if nsec <? 0
    then mkTime (sec - 1 + unixToInternal) (nsec + 1000000000)
    else mkTime (sec + unixToInternal) nsec
  else mkTime (sec + unixToInternal) nsec.

(** [t.Unix()], [t.UnixNano()] and [t.UnixMilli()] without their
    wrap-around: the instant as an exact count since the Unix epoch. *)
Definition Unix (t : Time) : Z := ext t - unixToInternal.
Definition UnixNano (t : Time) : Z := Unix t * 1000000000 + nsec t.
Definition UnixMilli (t : Time) : Z := Unix t * 1000 + nsec t / 1000000.

Definition is_digit (a : ascii) : bool :=
  let n := nat_of_ascii a in ((48 <=? n) && (n <=? 57))%nat.

Definition digit_value (a : ascii) : Z := Z.of_nat (nat_of_ascii a) - 48.

Fixpoint has_digit (s : string) : bool :=
  match s with
  | EmptyString => false
  | String a r => is_digit a || has_digit r
  end.

Fixpoint all_digits (s : string) : bool :=
  match s with
  | EmptyString => true
  | String a r => is_digit a && all_digits r
  end.

(** The longest prefix made of digits. *)
Fixpoint digit_prefix (s : string) : string :=
  match s with
  | EmptyString => EmptyString
  | String a r => if is_digit a then String a (digit_prefix r) else EmptyString
  end.

(** [regexp.MustCompile(`[0-9]+`).FindString(s)]: the leftmost match, taken
    greedily, or the empty string when nothing matches. *)
Fixpoint FindString (s : string) : string :=
  match s with
  | EmptyString => EmptyString
  | String a r => if is_digit a then digit_prefix s else FindString r
  end.

(** The number a string of decimal digits denotes, read left to right. *)
Fixpoint decimal (acc : Z) (s : string) : Z :=
  match s with
  | EmptyString => acc
  | String a r => decimal (acc * 10 + digit_value a) r
  end.

(** [strconv.Atoi] on an unsigned literal, for the 64-bit [int]: a syntax
    error unless the string is a non-empty run of digits, a range error
    when the number does not fit. *)
Definition Atoi (s : string) : error + Z :=
  match s with
  | EmptyString => inl ErrSyntax
  | _ =>
    if all_digits s then
      let n := decimal 0 s in
      if n <=? maxInt64 then inr n else inl ErrRange
    else inl ErrSyntax
  end.

End Std.

(** ** Package [edm]: the timestamp codec *)
Module Edm.
Import Json Std.

(** [type DateTime struct { time.Time }] *)
Record DateTime : Type := mkDateTime { Time_ : Time }.

Definition DateTime_zero : DateTime := mkDateTime Time_zero.

(** [func (d *DateTime) UnmarshalJSON(text []byte) (err error)]: the
    receiver before the call and the scanned [text] give the receiver
    after the call and the error. *)
Definition UnmarshalJSON (d : DateTime) (text : option json)
  : DateTime * option error :=
  match Unmarshal_string text EmptyString with
  | (_, Some err) => (d, Some err)
  | (value, None) =>
    if String.eqb value EmptyString then (d, None)
    else
      (* /Date(1488939627017)/ *)
      let match_ := FindString value in
      if String.eqb match_ EmptyString then (d, None)
      else
        match Atoi match_ with
        | inl err => (d, Some err)
        | inr milis =>
          (* new Date(milis) *)
          (mkDateTime (time_Unix 0 (wrap64 (milis * Millisecond))), None)
        end
  end.

(** The raw form of a timestamp, [/Date(<digits>)/]. *)
Definition legacy_date (digits : string) : string :=
  "/Date(" ++ digits ++ ")/".

End Edm.

(** ** Package [rest]: the client *)
Module Rest.
Import Json.

Definition mediaType : string := "application/json".
Definition charset : string := "utf-8".

(** *** Data *)

(** Addresses of the [url.URL] values that pointers refer to. *)
Definition loc : Type := positive.

(** [url.URL]. [User] stands for the [*Userinfo], which a copy of the
    struct shares with the original. *)
Record URL : Type := mkURL {
  Scheme : string;
  Opaque : string;
  User : option string;
  Host : string;
  Path : string;
  RawPath : string;
  ForceQuery : bool;
  RawQuery : string;
  Fragment : string
}.

(** [context.Context], identified by a name. *)
Record context : Type := mkContext { ctx_name : string }.

(** [http.Request], as far as this package fills it in. [Header] lists the
    values in the order [Header.Add] received them. *)
Record Request : Type := mkRequest {
  Method : string;
  ReqURL : string;
  ReqBody : string;
  Header : list (string * string);
  ReqCtx : option context
}.

(** What a reader finds in a body stream, by what a JSON decoder makes of
    it. *)
Inductive ReadResult : Type :=
| ReadJSON (j : json)          (* a well-formed JSON value comes first;
                                  what may follow it is left unread *)
| ReadEmpty                    (* nothing but white space *)
| ReadTruncated                (* a value that stops short *)
| ReadMalformed                (* bytes that do not begin a JSON value *)
| ReadFails (msg : string).    (* the stream fails on every read *)

(** An [io.ReadCloser]: what reading gives and what [Close] answers. A
    stream delivers its bytes to the end, or it fails on every read; read
    to the end, it has nothing more to give. *)
Record Stream : Type := mkStream {
  data : ReadResult;
  closeErr : option error
}.

(** [http.Response]. *)
Record Response : Type := mkResponse {
  StatusCode : Z;
  RespHeader : list (string * string);
  Body : Stream
}.

(** [RequestCompletionCallback]: a hook is known by the note it leaves
    behind for a request and its response. *)
Definition RequestCompletionCallback : Type := Request -> Response -> string.

(** [Client]. The [*http.Client] is the transport: for a request it
    answers with a failure or with a response. *)
Record Client : Type := mkClient {
  http : Request -> error + Response;
  baseURL : option loc;
  debug : bool;
  userAgent : string;
  onRequestCompleted : option RequestCompletionCallback
}.

(** [New] *)
Definition New (http : Request -> error + Response) : Client :=
  mkClient http None false EmptyString None.

(** The memory that the methods of [*Client] work on: the client the
    receiver points to and the URL values behind [*url.URL] pointers. *)
Record Store : Type := mkStore {
  client : Client;
  urls : gmap loc URL
}.

(** What is observable of a call besides its results: the lines written
    with [log.Println], the notes of the completion hook, and how often
    [Close] was called on the stream that the transport handed over as the
    body of the response. *)
Record World : Type := mkWorld {
  logged : list string;
  notified : list string;
  closes : nat
}.

Definition World_init : World := mkWorld [] [] 0.

(** *** Setters *)

Definition SetBaseURL (baseURL : option loc) (s : Store) : Store :=
  let c := client s in
  mkStore (mkClient (http c) baseURL (debug c) (userAgent c)
                    (onRequestCompleted c)) (urls s).

Definition SetDebug (debug : bool) (s : Store) : Store :=
  let c := client s in
  mkStore (mkClient (http c) (baseURL c) debug (userAgent c)
                    (onRequestCompleted c)) (urls s).

Definition SetUserAgent (userAgent : string) (s : Store) : Store :=
  let c := client s in
  mkStore (mkClient (http c) (baseURL c) (debug c) userAgent
                    (onRequestCompleted c)) (urls s).

(** *** Package [strings] *)

Definition HasPrefix (s prefix : string) : bool := String.prefix prefix s.

(** [strings.TrimSuffix]: [s] without the trailing [suffix], or [s] itself
    when it does not end with [suffix]. *)
Fixpoint TrimSuffix (s suffix : string) : string :=
  if String.eqb s suffix then EmptyString
  else match s with
       | EmptyString => EmptyString
       | String a r => String a (TrimSuffix r suffix)
       end.

(** [strings.TrimPrefix] and [strings.HasSuffix], used to state what
    [GetEndpoint] yields. *)
Definition TrimPrefix (s prefix : string) : string :=
  if HasPrefix s prefix
  then String.substring (String.length prefix)
                        (String.length s - String.length prefix) s
  else s.

Fixpoint HasSuffix (s suffix : string) : bool :=
  String.eqb s suffix ||
  match s with
  | EmptyString => false
  | String _ r => HasSuffix r suffix
  end.

(** *** [GetEndpoint] *)

(** [u := *c.baseURL; u.Path = path]: a copy of the struct with one field
    replaced. *)
Definition with_Path (u : URL) (path : string) : URL :=
  mkURL (Scheme u) (Opaque u) (User u) (Host u) path (RawPath u)
        (ForceQuery u) (RawQuery u) (Fragment u).

Definition nil_dereference : string :=
  "runtime error: invalid memory address or nil pointer dereference".

(** [func (c *Client) GetEndpoint(path string) *url.URL]. Reading
    [c.baseURL.Path] through a nil [baseURL] panics. The result points to a
    newly allocated URL. A Go pointer does not dangle, so the address in
    [baseURL] is one of the store. *)
Definition GetEndpoint (path : string) (s : Store) : outcome (loc * Store) :=
  match baseURL (client s) with
  | None => Panics nil_dereference
  | Some b =>
    match urls s !! b with
    | None => Panics nil_dereference
    | Some base =>
      let basePath := TrimSuffix (Path base) "/" in
      let path := if negb (HasPrefix path "/") then "/" ++ path else path in
      let u := with_Path base (basePath ++ path) in
      let p := fresh (dom (urls s)) in
      Returns (p, mkStore (client s) (<[p := u]> (urls s)))
    end
  end.

(** The path of the URL that [GetEndpoint] returns, if it returns. *)
Definition resolved_Path (p : string) (s : Store) : option string :=
  match GetEndpoint p s with
  | Returns (u, s') => Path <$> urls s' !! u
  | Panics _ => None
  end.

(** *** [NewRequest] *)

Definition Header_Add (key value : string) (req : Request) : Request :=
  mkRequest (Method req) (ReqURL req) (ReqBody req)
            (Header req ++ [(key, value)]) (ReqCtx req).

Definition WithContext (ctx : context) (req : Request) : Request :=
  mkRequest (Method req) (ReqURL req) (ReqBody req) (Header req) (Some ctx).

Section NewRequest.

(** The type of request payloads and the library functions that
    [NewRequest] calls: [json.NewEncoder(buf).Encode], [URL.String]
    and [http.NewRequest] (method, URL text, body). *)
Context {B : Type}.
Variable json_Encode : B -> error + string.
Variable URL_String : URL -> string.
Variable http_NewRequest : string -> string -> string -> error + Request.

(** [func (c *Client) NewRequest(ctx, method, path, body)], which
    returns a [*http.Request] and an [error]. *)
Definition NewRequest (ctx : option context) (method path : string)
    (body : option B) (s : Store) : outcome (Store * (error + Request)) :=
  match GetEndpoint path s with
  | Panics msg => Panics msg
  | Returns (u, s) =>
    let encoded :=
      match body with
      | Some b => json_Encode b
      | None => inr EmptyString
      end in
    match encoded with
    | inl err => Returns (s, inl err)
    | inr buf =>
      match urls s !! u with
      | None => Panics nil_dereference
      | Some uv =>
        match http_NewRequest method (URL_String uv) buf with
        | inl err => Returns (s, inl err)
        | inr req =>
          (* optionally pass along context *)
          let req := match ctx with
                     | Some ctx => WithContext ctx req
                     | None => req
                     end in
          let req := Header_Add "Content-Type"
                       (mediaType ++ "; charset=" ++ charset) req in
          let req := Header_Add "Accept" mediaType req in
          let req := Header_Add "User-Agent" (userAgent (client s)) req in
          Returns (s, inr req)
        end
      end
    end
  end.

End NewRequest.

(** The three headers that [NewRequest] adds, in the order it adds them. *)
Definition standard_headers (userAgent : string) : list (string * string) :=
  [("Content-Type", "application/json; charset=utf-8");
   ("Accept", "application/json");
   ("User-Agent", userAgent)].

(** [*p = v]: an assignment by the caller through a [*url.URL] it holds. *)
Definition write_URL (p : loc) (v : URL) (s : Store) : Store :=
  mkStore (client s) (<[p := v]> (urls s)).

(** *** [CheckResponse] *)

(** Modelled from the spec: [CheckResponse] is called by [Do] and defined in
    a file of package [rest] that is not among the sources at hand. The
    specification classifies a status in the 2xx family as success and
    anything else as a failure that carries the status. *)
Definition CheckResponse (r : Response) : option error :=
  let c := StatusCode r in
  if (200 <=? c) && (c <=? 299) then None else Some (ErrAPI c).

(** *** [Do] *)

Definition log_Println (line : string) (w : World) : World :=
  mkWorld (logged w ++ [line]) (notified w) (closes w).

Definition notify (note : string) (w : World) : World :=
  mkWorld (logged w) (notified w ++ [note]) (closes w).

(** What [httpResp.Body] refers to while [Do] runs. *)
Inductive BodyRef : Type :=
| Original     (* the stream of the transport, as it came *)
| Exhausted    (* the stream of the transport, read to the end *)
| Copy.        (* a copy of the content in memory; its [Close] does
                  nothing and answers nil *)

(** The body as a reader finds it. *)
Definition body_stream (r : Response) (b : BodyRef) : Stream :=
  match b with
  | Original => Body r
  | Exhausted => mkStream ReadEmpty (closeErr (Body r))
  | Copy => mkStream (data (Body r)) None
  end.

(** [httpResp.Body.Close()]: a call on the stream of the transport is
    counted and gives the answer of that stream. *)
Definition Body_Close (r : Response) (b : BodyRef) (w : World)
  : World * option error :=
  match b with
  | Copy => (w, None)
  | Original | Exhausted =>
    (mkWorld (logged w) (notified w) (S (closes w)), closeErr (Body r))
  end.

(** [drainBody] of [net/http/httputil], which
    [httputil.DumpResponse(httpResp, true)] runs on the body: it reads the
    stream to the end and calls [Close] on it, and leaves a copy in
    [httpResp.Body]. When the read fails it leaves the stream in place
    without closing it, and when [Close] fails it leaves the stream in
    place, read to the end. ([http.NoBody], which it passes over, is an
    empty stream that closes without error and is closed once by the
    deferred closure instead: the same count.) *)
Definition drainBody (r : Response) (w : World) : World * BodyRef :=
  match data (Body r) with
  | ReadFails _ => (w, Original)
  | _ =>
    let '(w, err) := Body_Close r Original w in
    (w, match err with Some _ => Exhausted | None => Copy end)
  end.

(** What [httpResp.Body] refers to when [Do] comes to decode it. *)
Definition body_in_Do (c : Client) (r : Response) : BodyRef :=
  if debug c then snd (drainBody r World_init) else Original.

(** Whether the dump of the response has used up the body: the debug flag
    is set, the stream could be read, and its [Close] failed. *)
Definition dump_exhausts (c : Client) (r : Response) : bool :=
  match body_in_Do c r with
  | Exhausted => true
  | _ => false
  end.

(** The least magnitude that [strconv.ParseFloat(s, 64)] rounds to
    infinity: half a unit in the last place above the largest [float64]. *)
Definition float64_limit : Z := 2 ^ 1024 - 2 ^ 970.

(** The part of [s] before the first character that is not a digit, and
    the rest. *)
Fixpoint span_digits (s : string) : string * string :=
  match s with
  | EmptyString => (EmptyString, EmptyString)
  | String a r =>
    if Std.is_digit a
    then let '(ds, rest) := span_digits r in (String a ds, rest)
    else (EmptyString, s)
  end.

(** Whether a JSON number literal, [-]digits[.digits][e[+-]digits], is out
    of the range of [float64]. The literal denotes [m * 10 ^ e] for the
    number [m] of its digits and the exponent [e] less the length of the
    fraction. *)
Definition literal_overflows (lit : string) : bool :=
  let unsigned := match lit with
                  | String "-" r => r
                  | _ => lit
                  end in
  let '(int_part, rest) := span_digits unsigned in
  let '(frac_part, rest) :=
    match rest with
    | String "." r => span_digits r
    | _ => (EmptyString, rest)
    end in
  let exponent :=
    match rest with
    | String _ (String "-" ds) => - Std.decimal 0 ds
    | String _ (String "+" ds) => Std.decimal 0 ds
    | String _ ds => Std.decimal 0 ds
    | EmptyString => 0
    end in
  let m := Std.decimal 0 (int_part ++ frac_part) in
  let e := exponent - Z.of_nat (String.length frac_part) in
  if 0 <=? e then float64_limit <=? m * 10 ^ e
  else float64_limit * 10 ^ (- e) <=? m.

(** The error that [encoding/json] records when it stores a value in an
    [interface{}] that holds no pointer: numbers become [float64], and the
    first literal out of its range, in the order of the text, is a type
    error; nothing else fails. *)
Fixpoint interface_error (j : json) : option error :=
  match j with
  | JNum n =>
    if float64_limit <=? Z.abs n
    then Some (ErrUnmarshalType ("number " ++ pretty n) "float64")
    else None
  | JFrac lit =>
    if literal_overflows lit
    then Some (ErrUnmarshalType ("number " ++ lit) "float64")
    else None
  | JArr elems =>
    (fix first (l : list json) : option error :=
       match l with
       | [] => None
       | x :: r => saveError (interface_error x) (first r)
       end) elems
  | JObj members =>
    (fix first (l : list (string * json)) : option error :=
       match l with
       | [] => None
       | kv :: r => saveError (interface_error (snd kv)) (first r)
       end) members
  | JNull | JBool _ | JStr _ => None
  end.

Section Do.

(** The type [T] that a non-nil [responseBody] points to, with what
    [encoding/json] does when it stores a JSON value other than [null] in
    a [T]: the value of the pointee afterwards (written in place, value by
    value) and the error it records, if any. [T] is a plain data type,
    not a pointer and not a [json.Unmarshaler]. *)
Context {T : Type}.
Variable unmarshal : json -> T -> T * option error.

(** The text that [httputil.DumpRequestOut(req, true)] and
    [httputil.DumpResponse(httpResp, true)] give for the log; a dump that
    fails gives the empty text. What the dump of the response does to
    the body is [drainBody]. *)
Variable DumpRequestOut : Request -> string.
Variable DumpResponse : Response -> string.

(** The state of a decode into [&Envelope{D: D{Results: responseBody}}]:
    whether [Results] still holds the caller's pointer, the value the
    caller's pointer refers to ([None] for a nil [responseBody]), and the
    first error recorded. *)
Record decodeState : Type := mkDecodeState {
  bound : bool;
  pointee : option T;
  savedError : option error
}.

(** Storing a value in [Results interface{}]. Through a non-nil pointer
    held by the interface the value goes to the pointee; [null] instead
    resets the interface itself; an interface that holds no pointer takes
    the value as it comes, numbers as [float64]. *)
Definition store_Results (v : json) (d : decodeState) : decodeState :=
  match bound d, pointee d with
  | true, Some t =>
    match v with
    | JNull => mkDecodeState false (Some t) (savedError d)
    | _ =>
      let '(t', e) := unmarshal v t in
      mkDecodeState true (Some t') (saveError (savedError d) e)
    end
  | _, _ =>
    mkDecodeState false (pointee d)
      (saveError (savedError d) (interface_error v))
  end.

(** Storing a value in a struct with one tagged field: the members of an
    object are taken in order, those that select the field are stored
    and the others skipped; [null] changes nothing; any other value is a
    type error, which is recorded. *)
Definition store_struct (gotype field : string)
    (store_field : json -> decodeState -> decodeState)
    (v : json) (d : decodeState) : decodeState :=
  match v with
  | JObj members =>
    fold_left
      (fun d kv => if field_matches field (fst kv)
                   then store_field (snd kv) d else d)
      members d
  | JNull => d
  | _ =>
    mkDecodeState (bound d) (pointee d)
      (saveError (savedError d)
                 (Some (ErrUnmarshalType (kind_name v) gotype)))
  end.

(** [type D struct { Results interface{} `json:"results"` }] *)
Definition store_D : json -> decodeState -> decodeState :=
  store_struct "rest.D" "results" store_Results.

(** [type Envelope struct { D D `json:"d"` }] *)
Definition store_Envelope : json -> decodeState -> decodeState :=
  store_struct "rest.Envelope" "d" store_D.

(** [envelope := &Envelope{D: D{Results: responseBody}};
    json.NewDecoder(httpResp.Body).Decode(envelope)]: the value of the
    caller's pointee afterwards, and the error. *)
Definition Decode (body : Stream) (responseBody : option T)
  : option T * option error :=
  match data body with
  | ReadEmpty => (responseBody, Some ErrEOF)
  | ReadTruncated => (responseBody, Some ErrUnexpectedEOF)
  | ReadMalformed => (responseBody, Some ErrSyntax)
  | ReadFails msg => (responseBody, Some (ErrRead msg))
  | ReadJSON j =>
    let d := store_Envelope j
               (mkDecodeState (bool_decide (is_Some responseBody))
                              responseBody None) in
    (pointee d, savedError d)
  end.

(** The deferred closure of [Do]:
    [if rerr := httpResp.Body.Close(); err == nil { err = rerr }].
    It works on the local variable [err], and on the body that
    [httpResp.Body] refers to when it runs. *)
Definition deferred_close (httpResp : Response) (body : BodyRef)
    (w : World) (err : option error) : World * option error :=
  let '(w, rerr) := Body_Close httpResp body w in
  (w, match err with None => rerr | Some _ => err end).

(** What a call of [Do] leaves: the world, the two results, the value
    behind [responseBody], and what the body of the returned response
    refers to. *)
Record DoResult : Type := mkDoResult {
  world : World;
  response : option Response;
  returned : option error;
  target : option T;
  body_left : option BodyRef
}.

(** [func (c *Client) Do(req *http.Request, responseBody interface{})],
    which returns a [*http.Response] and an [error]. The results are
    unnamed: a [return] statement fixes them, and the deferred closure,
    which runs afterwards, can change the local [err] only. The error of
    either dump is dropped ([dump, _ := ...]).

    The transport answers with a failure or with a response, never with
    a nil response and no failure, so the test [httpResp == nil] after
    [CheckResponse] is never true. *)
Definition Do (c : Client) (req : Request) (responseBody : option T)
    (w : World) : DoResult :=
  let w := if debug c then log_Println (DumpRequestOut req) w else w in
  match http c req with
  | inl err => mkDoResult w None (Some err) responseBody None
  | inr httpResp =>
    let w := match onRequestCompleted c with
             | Some f => notify (f req httpResp) w
             | None => w
             end in
    (* close body io.Reader: deferred *)
    let '(w, body) :=
      if debug c then
        let '(w, body) := drainBody httpResp w in
        (log_Println (DumpResponse httpResp) w, body)
      else (w, Original) in
    (* check if the response isn't an error *)
    let '(results, err, tgt) :=
      match CheckResponse httpResp with
      | Some e => ((Some httpResp, Some e), Some e, responseBody)
      | None =>
        (* try to decode body into interface parameter *)
        let '(tgt, err) :=
          Decode (body_stream httpResp body) responseBody in
        ((Some httpResp, err), err, tgt)
      end in
    let '(w, _) := deferred_close httpResp body w err in
    mkDoResult w (fst results) (snd results) tgt (Some body)
  end.

End Do.

(** The wire format of a successful response, [{"d":{"results":payload}}]. *)
Definition envelope (payload : json) : json :=
  JObj [("d", JObj [("results", payload)])].

(** Whether a JSON value has no top-level member that selects the field
    [d] of the envelope. *)
Definition lacks_d (j : json) : bool :=
  match j with
  | JObj members =>
    forallb (fun kv => negb (field_matches "d" (fst kv))) members
  | _ => true
  end.

(** *** Callers' targets

    Two destination types that callers decode into, with what
    [encoding/json] does for them. *)

(** A Go [int]. *)
Definition unmarshal_int (v : json) (x : Z) : Z * option error :=
  match v with
  | JNull => (x, None)
  | JNum n =>
    if (- 2 ^ 63 <=? n) && (n <=? Std.maxInt64) then (n, None)
    else (x, Some (ErrUnmarshalType ("number " ++ pretty n) "int"))
  | JFrac lit => (x, Some (ErrUnmarshalType ("number " ++ lit) "int"))
  | _ => (x, Some (ErrUnmarshalType (kind_name v) "int"))
  end.

(** [type Item struct { A int; B int }] *)
Record Item : Type := mkItem { A : Z; B : Z }.

Definition unmarshal_Item (v : json) (it : Item) : Item * option error :=
  match v with
  | JNull => (it, None)
  | JObj members =>
    fold_left
      (fun st kv =>
         let '(it, saved) := st in
         if field_matches "A" (fst kv) then
           let '(a, e) := unmarshal_int (snd kv) (A it) in
           (mkItem a (B it), saveError saved e)
         else if field_matches "B" (fst kv) then
           let '(b, e) := unmarshal_int (snd kv) (B it) in
           (mkItem (A it) b, saveError saved e)
         else st)
      members (it, None)
  | _ => (it, Some (ErrUnmarshalType (kind_name v) "Item"))
  end.

End Rest.

(** ** Doubles and sample values

    A transport double, a request and the values that the examples below
    run the client on. *)
Module Fixture.
Import Json Rest.

(** A transport that answers every request with [r]. *)
Definition respond (r : Response) : Request -> error + Response :=
  fun _ => inr r.

(** A transport that fails on every request. *)
Definition refuse (msg : string) : Request -> error + Response :=
  fun _ => inl (ErrTransport msg).

Definition get_items : Request :=
  mkRequest "GET" "https://start.exactonline.nl/api/v1/Items" EmptyString
            [] None.

Definition dumpRequest (r : Request) : string := Method r ++ " " ++ ReqURL r.

Definition dumpResponse (r : Response) : string :=
  match data (Body r) with
  | ReadJSON _ => "HTTP response with a JSON body"
  | _ => "HTTP response"
  end.

(** A response with status [code] whose body reads as [content] and closes
    with [closing]. *)
Definition reply (code : Z) (content : ReadResult) (closing : option error)
  : Response :=
  mkResponse code [] (mkStream content closing).

(** Payloads for an [Item]: one that fits, and one whose [B] is a string. *)
Definition item_payload : json := JObj [("A", JNum 1); ("B", JNum 2)].
Definition mismatched_payload : json := JObj [("A", JNum 1); ("B", JStr "x")].

(** A body with the payload under [results] but without the [d] wrapper. *)
Definition bare_results : json := JObj [("results", item_payload)].

(** [Do] on the request [get_items] with a target of type [*Item] (or nil),
    by a client made with [New] whose transport answers with [resp]. *)
Definition run (resp : Response) (responseBody : option Item)
  : DoResult (T := Item) :=
  Do unmarshal_Item dumpRequest dumpResponse (New (respond resp)) get_items
     responseBody World_init.

(** The same call by a client in debug mode. *)
Definition run_debug (resp : Response) (responseBody : option Item)
  : DoResult (T := Item) :=
  Do unmarshal_Item dumpRequest dumpResponse
     (mkClient (respond resp) None true EmptyString None) get_items
     responseBody World_init.

(** The base URL [https://start.exactonline.nl<path>?<query>]. *)
Definition base_url (path query : string) : URL :=
  mkURL "https" EmptyString None "start.exactonline.nl" path EmptyString
        false query EmptyString.

(** The base paths [/api/v1/] and [/api/v1], without a query. *)
Definition base_v1_slash : URL := base_url "/api/v1/" EmptyString.
Definition base_v1 : URL := base_url "/api/v1" EmptyString.

(** A client whose base URL, when set, is the URL at address 1. *)
Definition client_of (base : option loc) : Client :=
  mkClient (respond (reply 200 (ReadJSON (envelope JNull)) None))
           base false "go-exactonline" None.

Definition store_of (base : URL) : Store :=
  mkStore (client_of (Some 1%positive)) {[ 1%positive := base ]}.

(** A store that holds [base] at address 1 while the client has no base
    URL yet. *)
Definition store_holding (base : URL) : Store :=
  mkStore (client_of None) {[ 1%positive := base ]}.

(** The store right after [New]: no base URL has been set. *)
Definition store_new : Store := mkStore (client_of None) ∅.

(** Library functions for [NewRequest]: a payload that is already text, a
    URL printed as scheme, host, path and query, and a request made of the
    three arguments. *)
Definition encode_text (b : string) : error + string :=
  inr (b ++ String (ascii_of_nat 10) EmptyString).

Definition print_url (u : URL) : string :=
  Scheme u ++ "://" ++ Host u ++ Path u ++
  (if String.eqb (RawQuery u) EmptyString then EmptyString
   else "?" ++ RawQuery u).

Definition make_request (method url body : string) : error + Request :=
  if String.eqb method EmptyString then inl (ErrNewRequest "invalid method")
  else inr (mkRequest method url body [] None).

End Fixture.

(** * Properties *)

Import Json Std Edm Rest Fixture.

(** ** The timestamp codec *)

Lemma wrap64_small (z : Z) :
  - 2 ^ 63 <= z < 2 ^ 63 -> wrap64 z = z.
Proof.
  intros H. unfold wrap64. rewrite Z.mod_small; lia.
Qed.

(** [time.Unix(0, ns)] is the instant [ns] nanoseconds after the epoch. *)
Lemma UnixNano_time_Unix (ns : Z) : UnixNano (time_Unix 0 ns) = ns.
Proof.
  unfold time_Unix, UnixNano, Unix.
  destruct ((ns <? 0) || (1000000000 <=? ns)); simpl.
  - destruct (ns - ns ÷ 1000000000 * 1000000000 <? 0); simpl; lia.
  - lia.
Qed.

Lemma nsec_time_Unix (ns : Z) : 0 <= nsec (time_Unix 0 ns) < 1000000000.
Proof.
  unfold time_Unix.
  destruct ((ns <? 0) || (1000000000 <=? ns)) eqn:E; simpl.
  - pose proof (Z.quot_rem' ns 1000000000) as Hq.
    pose proof (Z.rem_bound_abs ns 1000000000 ltac:(lia)) as Hr.
    destruct (ns - ns ÷ 1000000000 * 1000000000 <? 0) eqn:E2; simpl; lia.
  - lia.
Qed.

(** Up to the largest count of milliseconds whose nanoseconds fit in 64
    bits, the product does not wrap and the instant is the right one. *)
Lemma UnixMilli_small (milis : Z) :
  0 <= milis <= 9223372036854 ->
  UnixMilli (time_Unix 0 (wrap64 (milis * Millisecond))) = milis.
Proof.
  intros H. unfold Millisecond.
  rewrite wrap64_small by lia.
  pose proof (UnixNano_time_Unix (milis * 1000000)) as Hn.
  pose proof (nsec_time_Unix (milis * 1000000)) as Hb.
  unfold UnixMilli, UnixNano in *.
  set (t := time_Unix 0 (milis * 1000000)) in *.
  assert (Hd : nsec t = (milis - Unix t * 1000) * 1000000) by lia.
  rewrite Hd, Z.div_mul by lia. lia.
Qed.

Lemma FindString_no_digit (s : string) :
  has_digit s = false -> FindString s = EmptyString.
Proof.
  induction s as [|a r IH]; simpl; [reflexivity|].
  intros H. apply orb_false_iff in H as [Ha Hr].
  rewrite Ha. auto.
Qed.

Lemma digit_prefix_all_digits (s : string) : all_digits (digit_prefix s) = true.
Proof.
  induction s as [|a r IH]; simpl; [reflexivity|].
  destruct (is_digit a) eqn:E; simpl; [|reflexivity].
  rewrite E. exact IH.
Qed.

(** The match of [[0-9]+] is made of digits, and it is not empty exactly
    when the string has a digit. *)
Lemma FindString_all_digits (s : string) : all_digits (FindString s) = true.
Proof.
  induction s as [|a r IH]; simpl; [reflexivity|].
  destruct (is_digit a) eqn:E; [|exact IH].
  simpl. rewrite E. simpl. apply digit_prefix_all_digits.
Qed.

Lemma FindString_has_digit (s : string) :
  has_digit s = true -> FindString s <> EmptyString.
Proof.
  induction s as [|a r IH]; simpl; [discriminate|].
  destruct (is_digit a) eqn:E; simpl; [discriminate | exact IH].
Qed.

(** What [UnmarshalJSON] does with a string that has a digit run, by the
    number [n] the run denotes: a range error beyond [maxInt64], and
    otherwise the instant whose nanosecond count is the 64-bit product
    [n * 1000000]. *)
Lemma UnmarshalJSON_digit_run (d : DateTime) (value : string) :
  has_digit value = true ->
  let n := decimal 0 (FindString value) in
  UnmarshalJSON d (Some (JStr value)) =
    if n <=? maxInt64
    then (mkDateTime (time_Unix 0 (wrap64 (n * Millisecond))), None)
    else (d, Some ErrRange).
Proof.
  intros H n. unfold UnmarshalJSON. simpl.
  destruct value as [|a r]; [discriminate|].
  replace (String.eqb (String a r) EmptyString) with false
    by (symmetry; apply String.eqb_neq; discriminate).
  pose proof (FindString_has_digit _ H) as Hne.
  pose proof (FindString_all_digits (String a r)) as Hall.
  fold n. unfold n. clear n.
  destruct (FindString (String a r)) as [|b m] eqn:Em; [congruence|].
  replace (String.eqb (String b m) EmptyString) with false
    by (symmetry; apply String.eqb_neq; discriminate).
  unfold Atoi. rewrite Hall.
  destruct (decimal 0 (String b m) <=? maxInt64); reflexivity.
Qed.

(** C7. Parsing ["/Date(1488939627017)/"] gives the instant
    1,488,939,627,017 ms after the Unix epoch. Parsing the empty string,
    ["garbage"], or any string [s] without a decimal digit gives no error
    and leaves the timestamp as it was, so a fresh timestamp stays the
    unset zero value. *)
Theorem UnmarshalJSON_examples (s : string) :
  has_digit s = false ->
  (exists t,
      UnmarshalJSON DateTime_zero (Some (JStr (legacy_date "1488939627017")))
        = (mkDateTime t, None)
      /\ UnixMilli t = 1488939627017
      /\ UnixNano t = 1488939627017 * 1000000)
  /\ UnmarshalJSON DateTime_zero (Some (JStr EmptyString))
     = (DateTime_zero, None)
  /\ UnmarshalJSON DateTime_zero (Some (JStr "garbage")) = (DateTime_zero, None)
  /\ IsZero (Time_ DateTime_zero) = true
  /\ (forall d, UnmarshalJSON d (Some (JStr s)) = (d, None)).
Proof.
  intros H. split; [|split; [|split; [|split]]].
  - eexists. split; [vm_compute; reflexivity|]. split; vm_compute; reflexivity.
  - reflexivity.
  - vm_compute. reflexivity.
  - reflexivity.
  - intros d. unfold UnmarshalJSON. simpl.
    destruct (String.eqb s EmptyString); [reflexivity|].
    rewrite (FindString_no_digit _ H). reflexivity.
Qed.

Lemma UnmarshalJSON_examples_witness :
  has_digit "no digits here" = false
  /\ forall d, UnmarshalJSON d (Some (JStr "no digits here")) = (d, None).
Proof.
  split; [reflexivity|].
  apply (UnmarshalJSON_examples "no digits here"). reflexivity.
Defined.

(** C6, at the input where the code departs from it. The digit run
    [9223372036855] fits the 64-bit [int], so [strconv.Atoi] accepts it and
    no error is returned; its product with [time.Millisecond] does not fit
    and wraps, and the timestamp produced lies 9,223,372,036,855 ms before
    the epoch instead of after it. One millisecond less is still right. *)
Theorem UnmarshalJSON_wraps_at_9223372036855 :
  Atoi "9223372036855" = inr 9223372036855
  /\ 9223372036855 <= maxInt64
  /\ (exists t,
        UnmarshalJSON DateTime_zero (Some (JStr (legacy_date "9223372036855")))
          = (mkDateTime t, None)
        /\ UnixNano t = 9223372036855 * 1000000 - 2 ^ 64
        /\ UnixMilli t = - 9223372036855
        /\ UnixMilli t <> 9223372036855)
  /\ (exists t,
        UnmarshalJSON DateTime_zero (Some (JStr (legacy_date "9223372036854")))
          = (mkDateTime t, None)
        /\ UnixMilli t = 9223372036854).
Proof.
  split; [vm_compute; reflexivity|].
  split; [vm_compute; discriminate|].
  split.
  - eexists. split; [vm_compute; reflexivity|].
    split; [vm_compute; reflexivity|].
    split; [vm_compute; reflexivity|].
    vm_compute. discriminate.
  - eexists. split; [vm_compute; reflexivity|]. vm_compute. reflexivity.
Qed.

(** ** Path resolution *)

Lemma append_cons (a : ascii) (r y : string) :
  String a r ++ y = String a (r ++ y).
Proof. reflexivity. Qed.

Lemma length_append (x y : string) :
  String.length (x ++ y) = (String.length x + String.length y)%nat.
Proof.
  induction x as [|a r IH]; [reflexivity|].
  rewrite append_cons. simpl. congruence.
Qed.

Lemma TrimSuffix_cons (a : ascii) (r suffix : string) :
  TrimSuffix (String a r) suffix =
    if String.eqb (String a r) suffix then EmptyString
    else String a (TrimSuffix r suffix).
Proof. reflexivity. Qed.

Lemma TrimSuffix_app (x suffix : string) :
  suffix <> EmptyString -> TrimSuffix (x ++ suffix) suffix = x.
Proof.
  intros Hne. induction x as [|a r IH].
  - destruct suffix as [|c t]; [congruence|].
    change (EmptyString ++ String c t) with (String c t).
    rewrite TrimSuffix_cons, String.eqb_refl. reflexivity.
  - change (String a r ++ suffix) with (String a (r ++ suffix)).
    rewrite TrimSuffix_cons.
    replace (String.eqb (String a (r ++ suffix)) suffix) with false.
    + f_equal. exact IH.
    + symmetry. apply String.eqb_neq. intros E.
      apply (f_equal String.length) in E. simpl in E.
      rewrite length_append in E. lia.
Qed.

Lemma HasSuffix_cons (a : ascii) (r suffix : string) :
  HasSuffix (String a r) suffix =
    String.eqb (String a r) suffix || HasSuffix r suffix.
Proof. reflexivity. Qed.

Lemma TrimSuffix_without (x suffix : string) :
  HasSuffix x suffix = false -> TrimSuffix x suffix = x.
Proof.
  induction x as [|a r IH]; intros H.
  - destruct suffix; [discriminate H | reflexivity].
  - rewrite HasSuffix_cons in H. apply orb_false_iff in H as [H1 H2].
    rewrite TrimSuffix_cons, H1. f_equal. auto.
Qed.

Lemma substring_all (s : string) : String.substring 0 (String.length s) s = s.
Proof. induction s; simpl; congruence. Qed.

Lemma HasPrefix_slash (p : string) :
  HasPrefix p "/" = true -> exists r, p = String "/"%char r.
Proof.
  unfold HasPrefix. destruct p as [|a r]; cbn [String.prefix]; [discriminate|].
  destruct (ascii_dec "/" a) as [<-|]; [eauto | discriminate].
Qed.

Lemma TrimPrefix_slash (r : string) : TrimPrefix ("/" ++ r) "/" = r.
Proof.
  change ("/" ++ r) with (String "/"%char r).
  unfold TrimPrefix, HasPrefix. cbn [String.prefix].
  destruct (ascii_dec "/" "/") as [_|N]; [|congruence].
  destruct r as [|c t]; [reflexivity|].
  cbn [String.prefix String.length Nat.sub String.substring].
  rewrite substring_all. reflexivity.
Qed.

Lemma TrimPrefix_without (p : string) :
  HasPrefix p "/" = false -> TrimPrefix p "/" = p.
Proof. unfold TrimPrefix. intros ->. reflexivity. Qed.

(** The relative path as [GetEndpoint] normalizes it is a slash followed by
    the path without its leading slash, if it had one. *)
Lemma normalized_path (p : string) :
  (if negb (HasPrefix p "/") then "/" ++ p else p) = "/" ++ TrimPrefix p "/".
Proof.
  destruct (HasPrefix p "/") eqn:E; cbn [negb].
  - destruct (HasPrefix_slash _ E) as [r ->].
    change (String "/"%char r) with ("/" ++ r) at 2.
    rewrite TrimPrefix_slash. reflexivity.
  - rewrite TrimPrefix_without by exact E. reflexivity.
Qed.

Lemma resolved_Path_eq (s : Store) (b : loc) (base : URL) (p : string) :
  baseURL (client s) = Some b ->
  urls s !! b = Some base ->
  resolved_Path p s =
    Some (TrimSuffix (Path base) "/" ++ "/" ++ TrimPrefix p "/").
Proof.
  intros Hb Hl. unfold resolved_Path, GetEndpoint.
  rewrite Hb, Hl. simpl. rewrite lookup_insert_eq. simpl.
  rewrite normalized_path. reflexivity.
Qed.

(** C4, as the code has it. With a base URL set, the resolved path is the
    base path without one trailing slash, one slash, and the relative path
    without one leading slash. So for a base path [stem] or [stem/] and a
    relative path [rel] or [/rel], where [stem] does not end and [rel] does
    not start with a slash, the result is [stem/rel] all four times, with
    exactly one slash between [stem] and [rel]. *)
Theorem GetEndpoint_single_slash (s : Store) (b : loc) (base : URL)
    (p stem rel : string) :
  baseURL (client s) = Some b ->
  urls s !! b = Some base ->
  HasSuffix stem "/" = false ->
  HasPrefix rel "/" = false ->
  resolved_Path p s =
    Some (TrimSuffix (Path base) "/" ++ "/" ++ TrimPrefix p "/")
  /\ ((Path base = stem \/ Path base = stem ++ "/") ->
      (p = rel \/ p = "/" ++ rel) ->
      resolved_Path p s = Some (stem ++ "/" ++ rel)).
Proof.
  intros Hb Hl Hstem Hrel.
  rewrite (resolved_Path_eq s b base p Hb Hl).
  split; [reflexivity|].
  intros Hbase Hp. do 2 f_equal.
  - destruct Hbase as [-> | ->].
    + apply TrimSuffix_without, Hstem.
    + apply TrimSuffix_app. discriminate.
  - f_equal. destruct Hp as [-> | ->].
    + apply TrimPrefix_without, Hrel.
    + apply TrimPrefix_slash.
Qed.

Lemma GetEndpoint_single_slash_witness :
  resolved_Path "Items" (store_of base_v1_slash) =
    Some "/api/v1/Items"
  /\ resolved_Path "/Items" (store_of base_v1) =
    Some "/api/v1/Items".
Proof.
  split.
  - apply (GetEndpoint_single_slash (store_of base_v1_slash) 1%positive
             base_v1_slash "Items" "/api/v1" "Items");
      try reflexivity.
    + right. reflexivity.
    + left. reflexivity.
  - apply (GetEndpoint_single_slash (store_of base_v1) 1%positive
             base_v1 "/Items" "/api/v1" "Items");
      try reflexivity.
    + left. reflexivity.
    + right. reflexivity.
Defined.

(** C4, as stated, fails: the base path [/api/v1//] loses one of its two
    trailing slashes only, and the relative path [//Items] keeps both of
    its leading ones, so two slashes stand between [/api/v1] and [Items]
    in the resolved path, not one. *)
Lemma GetEndpoint_doubled_slash :
  resolved_Path "Items" (store_of (base_url "/api/v1//" EmptyString))
    = Some ("/api/v1" ++ "//" ++ "Items")
  /\ resolved_Path "//Items" (store_of base_v1)
    = Some ("/api/v1" ++ "//" ++ "Items")
  /\ "/api/v1" ++ "//" ++ "Items" <> "/api/v1" ++ "/" ++ "Items".
Proof.
  split; [vm_compute; reflexivity|].
  split; [vm_compute; reflexivity|].
  discriminate.
Qed.

(** ** The unset base URL *)

(** C5, on the code: with no base URL set, [NewRequest] does not return an
    error. Its first statement calls [GetEndpoint], which reads the path
    through the nil pointer, and the call panics whatever the method, path
    and body are. *)
Theorem NewRequest_unset_base_panics {B : Type}
    (json_Encode : B -> error + string) (URL_String : URL -> string)
    (http_NewRequest : string -> string -> string -> error + Request)
    (ctx : option context) (method path : string) (body : option B)
    (s : Store) :
  baseURL (client s) = None ->
  GetEndpoint path s = Panics nil_dereference
  /\ NewRequest json_Encode URL_String http_NewRequest ctx method path body s
     = Panics nil_dereference.
Proof.
  intros H. unfold NewRequest, GetEndpoint. rewrite H. split; reflexivity.
Qed.

Lemma NewRequest_unset_base_panics_witness :
  baseURL (client store_new) = None
  /\ NewRequest encode_text print_url make_request None "GET" "Items"
       (Some "{}") store_new = Panics nil_dereference.
Proof.
  split; [reflexivity|].
  apply (NewRequest_unset_base_panics encode_text print_url make_request
           None "GET" "Items" (Some "{}") store_new).
  reflexivity.
Defined.

(** ** The client's configuration is only read *)

Lemma lookup_fresh_insert (m : gmap loc URL) (u : URL) (l : loc) (v : URL) :
  m !! l = Some v -> <[fresh (dom m) := u]> m !! l = Some v.
Proof.
  intros H. rewrite lookup_insert_ne; [exact H|].
  intros E. apply (is_fresh (dom m)). rewrite E.
  apply elem_of_dom. eauto.
Qed.

Lemma GetEndpoint_returns (s : Store) (b : loc) (base : URL) (path : string) :
  baseURL (client s) = Some b ->
  urls s !! b = Some base ->
  GetEndpoint path s =
    Returns (fresh (dom (urls s)),
             mkStore (client s)
               (<[fresh (dom (urls s)) :=
                    with_Path base
                      (TrimSuffix (Path base) "/" ++ "/" ++ TrimPrefix path "/")]>
                  (urls s))).
Proof.
  intros Hb Hl. unfold GetEndpoint. rewrite Hb, Hl. cbv zeta.
  rewrite normalized_path. reflexivity.
Qed.

(** C10. With a base URL set, [GetEndpoint] and [NewRequest] return, and
    the store they leave has the same client (base URL pointer, user agent,
    debug flag, callback and transport) and the same value at every URL
    address that was in use, the base URL among them. The endpoint is a new
    URL that is the base with its path replaced: scheme, host, query and
    every other field are the base's. Resolving the same path again gives
    an equal URL. *)
Theorem endpoint_leaves_configuration {B : Type}
    (json_Encode : B -> error + string) (URL_String : URL -> string)
    (http_NewRequest : string -> string -> string -> error + Request)
    (ctx : option context) (method path : string) (body : option B)
    (s : Store) (b : loc) (base : URL) :
  baseURL (client s) = Some b ->
  urls s !! b = Some base ->
  (exists u s' uv,
      GetEndpoint path s = Returns (u, s')
      /\ client s' = client s
      /\ (forall l v, urls s !! l = Some v -> urls s' !! l = Some v)
      /\ urls s !! u = None
      /\ urls s' !! u = Some uv
      /\ uv = with_Path base (Path uv)
      /\ Scheme uv = Scheme base /\ Host uv = Host base
      /\ RawQuery uv = RawQuery base
      /\ exists u2 s2,
          GetEndpoint path s' = Returns (u2, s2)
          /\ urls s2 !! u2 = Some uv
          /\ client s2 = client s)
  /\ (exists s' r,
        NewRequest json_Encode URL_String http_NewRequest ctx method path
          body s = Returns (s', r)
        /\ client s' = client s
        /\ (forall l v, urls s !! l = Some v -> urls s' !! l = Some v)).
Proof.
  intros Hb Hl.
  pose proof (GetEndpoint_returns s b base path Hb Hl) as HG.
  set (p := fresh (dom (urls s))) in *.
  set (uv := with_Path base
               (TrimSuffix (Path base) "/" ++ "/" ++ TrimPrefix path "/")) in *.
  set (s1 := mkStore (client s) (<[p := uv]> (urls s))) in *.
  assert (Hkeep : forall l v, urls s !! l = Some v -> urls s1 !! l = Some v)
    by (intros l v H; apply lookup_fresh_insert, H).
  assert (Hnew : urls s1 !! p = Some uv) by apply lookup_insert_eq.
  split.
  - exists p, s1, uv. repeat split; try assumption; try reflexivity.
    + apply not_elem_of_dom. apply is_fresh.
    + pose proof (GetEndpoint_returns s1 b base path Hb (Hkeep _ _ Hl)) as HG2.
      eexists _, _. split; [exact HG2|]. split; [|reflexivity].
      apply lookup_insert_eq.
  - unfold NewRequest. rewrite HG.
    destruct (match body with
              | Some b0 => json_Encode b0
              | None => inr EmptyString
              end) as [err|buf].
    + exists s1, (inl err). auto.
    + rewrite Hnew.
      destruct (http_NewRequest method (URL_String uv) buf) as [err|req].
      * exists s1, (inl err). auto.
      * eexists s1, _. auto.
Qed.

Lemma endpoint_leaves_configuration_witness :
  baseURL (client (store_of (base_url "/api/v1/" "$top=1"))) = Some 1%positive
  /\ urls (store_of (base_url "/api/v1/" "$top=1")) !! 1%positive
     = Some (base_url "/api/v1/" "$top=1")
  /\ exists s' r,
      NewRequest encode_text print_url make_request None "GET" "Items"
        (Some "{}") (store_of (base_url "/api/v1/" "$top=1")) = Returns (s', r)
      /\ client s' = client (store_of (base_url "/api/v1/" "$top=1"))
      /\ (forall l v,
            urls (store_of (base_url "/api/v1/" "$top=1")) !! l = Some v ->
            urls s' !! l = Some v).
Proof.
  split; [reflexivity|]. split; [reflexivity|].
  apply (endpoint_leaves_configuration encode_text print_url make_request
           None "GET" "Items" (Some "{}")
           (store_of (base_url "/api/v1/" "$top=1")) 1%positive
           (base_url "/api/v1/" "$top=1")); reflexivity.
Defined.

(** ** [Do] *)

(** Status classification, as the specification lists it. *)
Example CheckResponse_statuses :
  map (fun c => CheckResponse (reply c ReadEmpty None)) [200; 201; 204]
    = [None; None; None]
  /\ map (fun c => CheckResponse (reply c ReadEmpty None)) [400; 404; 500]
    = [Some (ErrAPI 400); Some (ErrAPI 404); Some (ErrAPI 500)].
Proof. split; reflexivity. Qed.

(** A transport failure comes back as it is, with no response, and nothing
    is closed. *)
Example Do_refused :
  Do unmarshal_Item dumpRequest dumpResponse (New (refuse "dial tcp"))
     get_items (Some (mkItem 0 0)) World_init
  = mkDoResult World_init None (Some (ErrTransport "dial tcp"))
               (Some (mkItem 0 0)) None.
Proof. reflexivity. Qed.

(** A full round in debug mode: the envelope around an item is decoded
    into the target, the hook is told, the traces are written, the body is
    closed by the dump and the response is left with a copy of it. *)
Example Do_decodes_item :
  Do unmarshal_Item dumpRequest dumpResponse
     (mkClient (respond (reply 200 (ReadJSON (envelope item_payload)) None))
               None true "go-exactonline"
               (Some (fun _ _ => "request completed")))
     get_items (Some (mkItem 0 0)) World_init
  = mkDoResult
      (mkWorld ["GET https://start.exactonline.nl/api/v1/Items";
                "HTTP response with a JSON body"]
               ["request completed"] 1)
      (Some (reply 200 (ReadJSON (envelope item_payload)) None))
      None (Some (mkItem 1 2)) (Some Copy).
Proof. vm_compute. reflexivity. Qed.

Section DoFacts.

Context {T : Type}.
Variable unmarshal : json -> T -> T * option error.
Variable DumpRequestOut : Request -> string.
Variable DumpResponse : Response -> string.

Abbreviation Do := (Rest.Do unmarshal DumpRequestOut DumpResponse).
Abbreviation Decode := (Rest.Decode unmarshal).

(** The decode sees of a stream only what reading it gives. *)
Lemma Decode_data (b1 b2 : Stream) (rb : option T) :
  data b1 = data b2 -> Decode b1 rb = Decode b2 rb.
Proof. intros H. unfold Rest.Decode. rewrite H. reflexivity. Qed.

(** The body that [Do] decodes gives what the transport's stream gives,
    unless the dump has used it up: then it gives nothing. *)
Lemma Decode_in_Do (c : Client) (resp : Response) (rb : option T) :
  Decode (body_stream resp (body_in_Do c resp)) rb =
    if dump_exhausts c resp then (rb, Some ErrEOF)
    else Decode (Body resp) rb.
Proof.
  unfold dump_exhausts, body_in_Do, drainBody, Body_Close.
  destruct (debug c); [|reflexivity].
  destruct (data (Body resp)) eqn:Hd, (closeErr (Body resp)); cbn;
    try reflexivity;
    apply Decode_data; cbn; congruence.
Qed.

(** The results of [Do] once the transport has answered: they are those
    of the classification and of the decode of the body as [Do] finds it;
    the answer of [Close] is not among them. *)
Lemma Do_dispatched (c : Client) (req : Request) (rb : option T)
    (w : World) (resp : Response) :
  http c req = inr resp ->
  response (Do c req rb w) = Some resp
  /\ returned (Do c req rb w) =
      match CheckResponse resp with
      | Some e => Some e
      | None =>
        if dump_exhausts c resp then Some ErrEOF
        else snd (Decode (Body resp) rb)
      end
  /\ target (Do c req rb w) =
      match CheckResponse resp with
      | Some e => rb
      | None =>
        if dump_exhausts c resp then rb
        else fst (Decode (Body resp) rb)
      end
  /\ closes (world (Do c req rb w)) =
      (closes w + if dump_exhausts c resp then 2 else 1)%nat
  /\ body_left (Do c req rb w) = Some (body_in_Do c resp).
Proof.
  intros H.
  assert (HD := Decode_in_Do c resp rb).
  assert (Hstep :
    response (Do c req rb w) = Some resp
    /\ returned (Do c req rb w) =
        match CheckResponse resp with
        | Some e => Some e
        | None => snd (Decode (body_stream resp (body_in_Do c resp)) rb)
        end
    /\ target (Do c req rb w) =
        match CheckResponse resp with
        | Some e => rb
        | None => fst (Decode (body_stream resp (body_in_Do c resp)) rb)
        end
    /\ closes (world (Do c req rb w)) =
        (closes w + if dump_exhausts c resp then 2 else 1)%nat
    /\ body_left (Do c req rb w) = Some (body_in_Do c resp)).
  { clear HD. unfold Rest.Do, dump_exhausts, body_in_Do. rewrite H.
    unfold drainBody, deferred_close, Body_Close.
    destruct (debug c), (onRequestCompleted c),
      (data (Body resp)), (closeErr (Body resp)),
      (CheckResponse resp); cbn;
      repeat match goal with
             | |- context [Rest.Decode ?u ?b ?r] =>
               destruct (Rest.Decode u b r)
             end; cbn; repeat split; try reflexivity; lia. }
  rewrite HD in Hstep.
  destruct Hstep as (H1 & H2 & H3 & H4 & H5).
  repeat split; try assumption.
  - rewrite H2. destruct (CheckResponse resp), (dump_exhausts c resp);
      reflexivity.
  - rewrite H3. destruct (CheckResponse resp), (dump_exhausts c resp);
      reflexivity.
Qed.

Lemma Do_transport_failure (c : Client) (req : Request) (rb : option T)
    (w : World) (err : error) :
  http c req = inl err ->
  response (Do c req rb w) = None
  /\ returned (Do c req rb w) = Some err
  /\ target (Do c req rb w) = rb
  /\ closes (world (Do c req rb w)) = closes w.
Proof.
  intros H. unfold Do, Rest.Do. rewrite H.
  destruct (debug c); simpl; auto.
Qed.

(** Members that do not select the field leave the decode state alone. *)
Lemma store_struct_skips (gotype field : string)
    (store_field : json -> @decodeState T -> @decodeState T)
    (members : list (string * json)) (d : @decodeState T) :
  forallb (fun kv => negb (field_matches field (fst kv))) members = true ->
  store_struct gotype field store_field (JObj members) d = d.
Proof.
  unfold store_struct. revert d.
  induction members as [|kv ms IH]; intros d H; [reflexivity|].
  simpl in H. apply andb_true_iff in H as [Hk Hms].
  apply negb_true_iff in Hk. cbn [fold_left]. rewrite Hk. apply IH, Hms.
Qed.

(** The decode of a value without a [d] member: nothing is written, and
    an error is recorded only for a value that is neither an object nor
    [null]. *)
Lemma Decode_lacks_d (body : Stream) (j : json) (rb : option T) :
  data body = ReadJSON j ->
  lacks_d j = true ->
  Decode body rb =
    (rb, match j with
         | JObj _ | JNull => None
         | _ => Some (ErrUnmarshalType (kind_name j) "rest.Envelope")
         end).
Proof.
  intros Hd Hl. unfold Decode, Rest.Decode. rewrite Hd.
  destruct j; try reflexivity.
  unfold store_Envelope. rewrite store_struct_skips by exact Hl.
  reflexivity.
Qed.

(** The decode of [{"d":{"results":payload}}] into a non-nil target is
    the store of the payload in the pointee. *)
Lemma Decode_envelope (body : Stream) (payload : json) (t : T) :
  data body = ReadJSON (envelope payload) ->
  payload <> JNull ->
  Decode body (Some t) =
    (Some (fst (unmarshal payload t)), snd (unmarshal payload t)).
Proof.
  intros Hd Hp. unfold Decode, Rest.Decode. rewrite Hd.
  unfold envelope, store_Envelope, store_D, store_struct.
  cbn [fold_left fst snd].
  replace (field_matches "d" "d") with true by reflexivity.
  replace (field_matches "results" "results") with true by reflexivity.
  unfold store_Results. cbn [bound pointee savedError].
  replace (bool_decide (is_Some (Some t))) with true
    by (symmetry; apply bool_decide_eq_true; eauto).
  destruct (unmarshal payload t) as [t' e].
  destruct payload; try congruence; reflexivity.
Qed.

(** C1, as the code has it. For a 2xx response whose body is valid JSON
    without a top-level [d] member, [Do] with a non-nil target leaves the
    target untouched. Unless the dump of a debug client has used up the
    body, it returns a decode error only when the body is neither an
    object nor [null] (an array, a string, a number or a boolean); for an
    object without [d], matched up to letter case, and for [null] it
    returns no error. *)
Theorem Do_body_without_d (c : Client) (req : Request) (t : T) (w : World)
    (resp : Response) (j : json) :
  http c req = inr resp ->
  CheckResponse resp = None ->
  data (Body resp) = ReadJSON j ->
  lacks_d j = true ->
  response (Do c req (Some t) w) = Some resp
  /\ target (Do c req (Some t) w) = Some t
  /\ (dump_exhausts c resp = false ->
      returned (Do c req (Some t) w) =
        match j with
        | JObj _ | JNull => None
        | _ => Some (ErrUnmarshalType (kind_name j) "rest.Envelope")
        end).
Proof.
  intros Hh Hc Hd Hl.
  destruct (Do_dispatched c req (Some t) w resp Hh) as (Hr & He & Ht & _).
  rewrite Hc in He, Ht. rewrite (Decode_lacks_d _ j _ Hd Hl) in He, Ht.
  split; [exact Hr|]. split.
  - rewrite Ht. destruct (dump_exhausts c resp); reflexivity.
  - intros Hx. rewrite Hx in He. exact He.
Qed.

(** C2, on the code: a nil [responseBody] does not skip the decode. On a
    2xx response, [Do] builds the envelope around the nil target and
    decodes the body all the same, so an empty body gives [io.EOF] and a
    body that is not an object (an array, say) gives a type error, or
    [io.EOF] when the dump of a debug client has used up the body. The
    body is closed in every case. *)
Theorem Do_nil_target_decodes (c : Client) (req : Request) (w : World)
    (resp : Response) :
  http c req = inr resp ->
  CheckResponse resp = None ->
  closes (world (Do c req None w)) =
    (closes w + if dump_exhausts c resp then 2 else 1)%nat
  /\ (data (Body resp) = ReadEmpty ->
      returned (Do c req None w) = Some ErrEOF)
  /\ (forall elems, data (Body resp) = ReadJSON (JArr elems) ->
      returned (Do c req None w)
        = Some (if dump_exhausts c resp then ErrEOF
                else ErrUnmarshalType "array" "rest.Envelope")).
Proof.
  intros Hh Hc.
  destruct (Do_dispatched c req None w resp Hh) as (_ & He & _ & Hn & _).
  rewrite Hc in He. split; [exact Hn|]. split.
  - intros Hd. rewrite He. unfold Decode, Rest.Decode. rewrite Hd.
    destruct (dump_exhausts c resp); reflexivity.
  - intros elems Hd. rewrite He. unfold Decode, Rest.Decode. rewrite Hd.
    destruct (dump_exhausts c resp); reflexivity.
Qed.

(** C3, as the code has it. After a call that the transport answered:
    when the response is classified as a failure, when the body of a 2xx
    response does not begin with a well-formed JSON value, or when the
    dump of a debug client has used up the body, an error is returned and
    the target is what it was; otherwise, when a 2xx body is
    [{"d":{"results":payload}}] with a payload other than [null], the
    target is the value the decoder wrote in place and the error is the
    decoder's, so no error comes with the payload stored in full, and an
    error comes with whatever the decoder had stored. *)
Theorem Do_error_and_target (c : Client) (req : Request) (rb : option T)
    (w : World) (resp : Response) :
  http c req = inr resp ->
  response (Do c req rb w) = Some resp
  /\ (forall e, CheckResponse resp = Some e ->
      returned (Do c req rb w) = Some e /\ target (Do c req rb w) = rb)
  /\ (CheckResponse resp = None ->
      (forall j, data (Body resp) <> ReadJSON j) ->
      is_Some (returned (Do c req rb w)) /\ target (Do c req rb w) = rb)
  /\ (CheckResponse resp = None ->
      dump_exhausts c resp = true ->
      returned (Do c req rb w) = Some ErrEOF /\ target (Do c req rb w) = rb)
  /\ (forall payload t,
      CheckResponse resp = None ->
      dump_exhausts c resp = false ->
      data (Body resp) = ReadJSON (envelope payload) ->
      payload <> JNull ->
      rb = Some t ->
      target (Do c req rb w) = Some (fst (unmarshal payload t))
      /\ returned (Do c req rb w) = snd (unmarshal payload t)).
Proof.
  intros Hh.
  destruct (Do_dispatched c req rb w resp Hh) as (Hr & He & Ht & _).
  split; [exact Hr|]. split; [|split; [|split]].
  - intros e Hc. rewrite Hc in He, Ht. auto.
  - intros Hc Hd. rewrite Hc in He, Ht. rewrite He, Ht.
    destruct (dump_exhausts c resp); [eauto|].
    unfold Decode, Rest.Decode.
    destruct (data (Body resp)) as [j| | | |msg]; simpl; eauto.
    exfalso. apply (Hd j). reflexivity.
  - intros Hc Hx. rewrite Hc, Hx in He, Ht. auto.
  - intros payload t Hc Hx Hd Hp ->. rewrite Hc, Hx in He, Ht.
    rewrite (Decode_envelope _ payload t Hd Hp) in He, Ht. auto.
Qed.

(** C8, on the code: the error of [Close] does not reach the caller. The
    deferred closure stores it in the local [err] after the results have
    been fixed, so a call whose classification and decode succeed returns
    no error although closing the body failed. In debug mode the dump has
    met the failing [Close] first and dropped its error too, and [Do]
    returns the [io.EOF] of decoding the body it used up. *)
Theorem Do_drops_close_error (c : Client) (req : Request) (rb : option T)
    (w : World) (resp : Response) (e : error) :
  http c req = inr resp ->
  CheckResponse resp = None ->
  snd (Decode (Body resp) rb) = None ->
  closeErr (Body resp) = Some e ->
  (debug c = false -> returned (Do c req rb w) = None)
  /\ (debug c = true -> returned (Do c req rb w) = Some ErrEOF)
  /\ snd (deferred_close resp Original w None) = Some e.
Proof.
  intros Hh Hc Hd Hcl.
  destruct (Do_dispatched c req rb w resp Hh) as (_ & He & _ & _).
  rewrite Hc in He.
  assert (Hx : dump_exhausts c resp = debug c).
  { unfold dump_exhausts, body_in_Do, drainBody, Body_Close.
    destruct (debug c); [|reflexivity]. rewrite Hcl.
    unfold Decode, Rest.Decode in Hd.
    destruct (data (Body resp)); try reflexivity. discriminate. }
  rewrite Hx in He. split; [|split].
  - intros Hdbg. rewrite Hdbg, Hd in He. exact He.
  - intros Hdbg. rewrite Hdbg in He. exact He.
  - unfold deferred_close, Body_Close. simpl. exact Hcl.
Qed.


End DoFacts.

(** C1, as stated, fails: a 200 response with the valid JSON body
    [{"results":{"A":1,"B":2}}], which has no [d] wrapper, is decoded into a
    non-nil target without any error, and the target is left untouched. *)
Lemma Do_accepts_body_without_d :
  CheckResponse (reply 200 (ReadJSON bare_results) None) = None
  /\ lacks_d bare_results = true
  /\ returned (run (reply 200 (ReadJSON bare_results) None)
                  (Some (mkItem 0 0))) = None
  /\ target (run (reply 200 (ReadJSON bare_results) None)
                (Some (mkItem 0 0))) = Some (mkItem 0 0).
Proof. repeat split; vm_compute; reflexivity. Qed.

Lemma Do_body_without_d_witness :
  http (New (respond (reply 200 (ReadJSON (JArr [item_payload])) None)))
       get_items
    = inr (reply 200 (ReadJSON (JArr [item_payload])) None)
  /\ lacks_d (JArr [item_payload]) = true
  /\ target (run (reply 200 (ReadJSON (JArr [item_payload])) None)
                (Some (mkItem 0 0))) = Some (mkItem 0 0)
  /\ returned (run (reply 200 (ReadJSON (JArr [item_payload])) None)
                  (Some (mkItem 0 0)))
     = Some (ErrUnmarshalType "array" "rest.Envelope").
Proof.
  split; [reflexivity|]. split; [reflexivity|].
  destruct (Do_body_without_d unmarshal_Item dumpRequest dumpResponse
              (New (respond (reply 200 (ReadJSON (JArr [item_payload]))
                                   None)))
              get_items (mkItem 0 0) World_init
              (reply 200 (ReadJSON (JArr [item_payload])) None)
              (JArr [item_payload]) eq_refl eq_refl eq_refl eq_refl)
    as (_ & Ht & He).
  split; [exact Ht | exact (He eq_refl)].
Defined.

Lemma Do_nil_target_decodes_witness :
  http (New (respond (reply 204 ReadEmpty None))) get_items
    = inr (reply 204 ReadEmpty None)
  /\ CheckResponse (reply 204 ReadEmpty None) = None
  /\ returned (run (reply 204 ReadEmpty None) None) = Some ErrEOF.
Proof.
  split; [reflexivity|]. split; [reflexivity|].
  apply (Do_nil_target_decodes unmarshal_Item dumpRequest dumpResponse
           (New (respond (reply 204 ReadEmpty None))) get_items World_init
           (reply 204 ReadEmpty None)); reflexivity.
Defined.

(** C3, as stated, fails: on the 200 body
    [{"d":{"results":{"A":1,"B":"x"}}}] the decode into an [Item] returns a
    type error for [B] after it has stored [A]. The call returns an error
    and the target is neither what it was nor the payload. *)
Lemma Do_partial_decode :
  CheckResponse (reply 200 (ReadJSON (envelope mismatched_payload)) None)
    = None
  /\ returned (run (reply 200 (ReadJSON (envelope mismatched_payload)) None)
                  (Some (mkItem 0 0)))
     = Some (ErrUnmarshalType "string" "int")
  /\ target (run (reply 200 (ReadJSON (envelope mismatched_payload)) None)
                (Some (mkItem 0 0)))
     = Some (mkItem 1 0)
  /\ mkItem 1 0 <> mkItem 0 0.
Proof. repeat split; try (vm_compute; reflexivity). discriminate. Qed.

Lemma Do_error_and_target_witness :
  http (New (respond (reply 200 (ReadJSON (envelope item_payload)) None)))
       get_items
    = inr (reply 200 (ReadJSON (envelope item_payload)) None)
  /\ target (run (reply 200 (ReadJSON (envelope item_payload)) None)
                (Some (mkItem 0 0)))
     = Some (fst (unmarshal_Item item_payload (mkItem 0 0)))
  /\ returned (run (reply 200 (ReadJSON (envelope item_payload)) None)
                  (Some (mkItem 0 0)))
     = snd (unmarshal_Item item_payload (mkItem 0 0)).
Proof.
  split; [reflexivity|].
  apply (proj2 (proj2 (proj2 (proj2
           (Do_error_and_target unmarshal_Item dumpRequest dumpResponse
              (New (respond (reply 200 (ReadJSON (envelope item_payload))
                                   None)))
              get_items (Some (mkItem 0 0)) World_init
              (reply 200 (ReadJSON (envelope item_payload)) None) eq_refl))))
           item_payload (mkItem 0 0)); try reflexivity.
  discriminate.
Defined.

Lemma Do_drops_close_error_witness :
  closeErr (Body (reply 200 (ReadJSON (envelope item_payload))
                        (Some (ErrClose "connection reset"))))
    = Some (ErrClose "connection reset")
  /\ returned (run (reply 200 (ReadJSON (envelope item_payload))
                          (Some (ErrClose "connection reset")))
                  (Some (mkItem 0 0))) = None
  /\ returned (run_debug (reply 200 (ReadJSON (envelope item_payload))
                                (Some (ErrClose "connection reset")))
                        (Some (mkItem 0 0))) = Some ErrEOF.
Proof.
  split; [reflexivity|]. split.
  - apply (Do_drops_close_error unmarshal_Item dumpRequest dumpResponse
             (New (respond (reply 200 (ReadJSON (envelope item_payload))
                                  (Some (ErrClose "connection reset")))))
             get_items (Some (mkItem 0 0)) World_init
             (reply 200 (ReadJSON (envelope item_payload))
                    (Some (ErrClose "connection reset")))
             (ErrClose "connection reset")); reflexivity.
  - apply (Do_drops_close_error unmarshal_Item dumpRequest dumpResponse
             (mkClient (respond (reply 200 (ReadJSON (envelope item_payload))
                                       (Some (ErrClose "connection reset"))))
                       None true EmptyString None)
             get_items (Some (mkItem 0 0)) World_init
             (reply 200 (ReadJSON (envelope item_payload))
                    (Some (ErrClose "connection reset")))
             (ErrClose "connection reset")); reflexivity.
Defined.



(** * Further properties *)

(** ** The timestamp codec: errors, range and tolerance *)

Lemma is_digit_value (a : ascii) :
  is_digit a = true -> 0 <= digit_value a <= 9.
Proof.
  unfold is_digit, digit_value. intros H.
  apply andb_true_iff in H as [H1 H2].
  apply Nat.leb_le in H1, H2. lia.
Qed.

Lemma decimal_lower (s : string) (acc : Z) :
  all_digits s = true -> 0 <= acc -> acc <= decimal acc s.
Proof.
  revert acc. induction s as [|a r IH]; intros acc H Hacc; simpl; [lia|].
  simpl in H. apply andb_true_iff in H as [Ha Hr].
  pose proof (is_digit_value a Ha) as Hv.
  specialize (IH (acc * 10 + digit_value a) Hr ltac:(lia)). lia.
Qed.

Lemma wrap64_range (z : Z) : - 2 ^ 63 <= wrap64 z < 2 ^ 63.
Proof.
  unfold wrap64.
  pose proof (Z.mod_pos_bound (z + 2 ^ 63) (2 ^ 64) ltac:(lia)). lia.
Qed.

(** The milliseconds of an instant are its nanoseconds divided by a
    million, rounded down. *)
Lemma UnixMilli_of_UnixNano (t : Time) : UnixMilli t = UnixNano t / 1000000.
Proof.
  unfold UnixMilli, UnixNano.
  replace (Unix t * 1000000000 + nsec t)
    with (Unix t * 1000 * 1000000 + nsec t) by lia.
  rewrite Z.div_add_l by lia. reflexivity.
Qed.

Lemma has_digit_FindString (s : string) :
  FindString s <> EmptyString -> has_digit s = true.
Proof.
  intros H. destruct (has_digit s) eqn:E; [reflexivity|].
  exfalso. apply H. apply FindString_no_digit, E.
Qed.

Lemma digit_prefix_app (ds suf : string) :
  all_digits ds = true ->
  digit_prefix suf = EmptyString ->
  digit_prefix (ds ++ suf) = ds.
Proof.
  intros Hd Hs. induction ds as [|a r IH]; [exact Hs|].
  simpl in Hd. apply andb_true_iff in Hd as [Ha Hr].
  rewrite append_cons. simpl. rewrite Ha. f_equal. auto.
Qed.

(** The match of [[0-9]+] in a digit run that stands after text without
    digits and before text that does not go on with a digit is the run. *)
Lemma FindString_app (pre ds suf : string) :
  has_digit pre = false ->
  all_digits ds = true ->
  ds <> EmptyString ->
  digit_prefix suf = EmptyString ->
  FindString (pre ++ ds ++ suf) = ds.
Proof.
  intros Hp Hd Hne Hs. induction pre as [|a r IH].
  - change (EmptyString ++ ds ++ suf) with (ds ++ suf).
    destruct ds as [|c t]; [congruence|].
    pose proof (digit_prefix_app (String c t) suf Hd Hs) as Hdp.
    rewrite append_cons in *. simpl in Hd.
    apply andb_true_iff in Hd as [Hc _].
    cbn [FindString]. rewrite Hc. exact Hdp.
  - simpl in Hp. apply orb_false_iff in Hp as [Ha Hr].
    rewrite append_cons. cbn [FindString]. rewrite Ha. auto.
Qed.

(** X1. Whenever [UnmarshalJSON] returns an error, of whatever kind, the
    receiver is what it was before the call. *)
Theorem UnmarshalJSON_error_keeps_receiver (d d' : DateTime)
    (text : option json) (e : error) :
  UnmarshalJSON d text = (d', Some e) -> d' = d.
Proof.
  unfold UnmarshalJSON.
  destruct (Unmarshal_string text EmptyString) as [value [err|]].
  - intros H. congruence.
  - destruct (String.eqb value EmptyString); [congruence|].
    destruct (String.eqb (FindString value) EmptyString); [congruence|].
    destruct (Atoi (FindString value)); congruence.
Qed.

Lemma UnmarshalJSON_error_keeps_receiver_witness :
  UnmarshalJSON (mkDateTime (time_Unix 5 0)) (Some (JNum 7))
    = (mkDateTime (time_Unix 5 0), Some (ErrUnmarshalType "number" "string"))
  /\ mkDateTime (time_Unix 5 0) = mkDateTime (time_Unix 5 0).
Proof.
  split; [reflexivity|].
  apply (UnmarshalJSON_error_keeps_receiver (mkDateTime (time_Unix 5 0))
           (mkDateTime (time_Unix 5 0)) (Some (JNum 7))
           (ErrUnmarshalType "number" "string")).
  reflexivity.
Defined.

(** X2. The text of the timestamp has to be a JSON string. [null] is
    taken like the empty string: no error, receiver unchanged. Text that
    is not JSON gives a syntax error, and any other JSON value a type
    error that names its kind. *)
Theorem UnmarshalJSON_not_a_string (d : DateTime) (j : json) :
  (forall s, j <> JStr s) ->
  UnmarshalJSON d None = (d, Some ErrSyntax)
  /\ UnmarshalJSON d (Some JNull) = (d, None)
  /\ (j <> JNull ->
      UnmarshalJSON d (Some j)
        = (d, Some (ErrUnmarshalType (kind_name j) "string"))).
Proof.
  intros Hs. split; [reflexivity|]. split; [reflexivity|].
  intros Hn. destruct j; try reflexivity; [congruence|].
  exfalso. apply (Hs s). reflexivity.
Qed.

Lemma UnmarshalJSON_not_a_string_witness :
  (forall s, JArr [JNum 1488939627017] <> JStr s)
  /\ UnmarshalJSON DateTime_zero (Some (JArr [JNum 1488939627017]))
     = (DateTime_zero, Some (ErrUnmarshalType "array" "string")).
Proof.
  split; [discriminate|].
  apply (UnmarshalJSON_not_a_string DateTime_zero (JArr [JNum 1488939627017]));
    discriminate.
Defined.

(** X3. A string whose first digit run denotes a number above the largest
    64-bit integer gives the range error of [strconv.Atoi], and the
    receiver is unchanged. *)
Theorem UnmarshalJSON_range_error (d : DateTime) (value : string) :
  has_digit value = true ->
  maxInt64 < decimal 0 (FindString value) ->
  UnmarshalJSON d (Some (JStr value)) = (d, Some ErrRange).
Proof.
  intros Hd Hn. rewrite (UnmarshalJSON_digit_run d value Hd).
  replace (decimal 0 (FindString value) <=? maxInt64) with false
    by (symmetry; apply Z.leb_gt; exact Hn).
  reflexivity.
Qed.

Lemma UnmarshalJSON_range_error_witness :
  has_digit (legacy_date "9223372036854775808") = true
  /\ UnmarshalJSON DateTime_zero
       (Some (JStr (legacy_date "9223372036854775808")))
     = (DateTime_zero, Some ErrRange).
Proof.
  split; [reflexivity|].
  apply (UnmarshalJSON_range_error DateTime_zero
           (legacy_date "9223372036854775808")); reflexivity.
Defined.

(** X4. A string whose first digit run denotes a number [n] of at most
    9,223,372,036,854 gives, without error, the instant exactly [n]
    milliseconds after the Unix epoch, whatever the receiver held. *)
Theorem UnmarshalJSON_millis_exact (d : DateTime) (value : string) :
  has_digit value = true ->
  decimal 0 (FindString value) <= 9223372036854 ->
  exists t,
    UnmarshalJSON d (Some (JStr value)) = (mkDateTime t, None)
    /\ UnixMilli t = decimal 0 (FindString value)
    /\ UnixNano t = decimal 0 (FindString value) * 1000000.
Proof.
  intros Hd Hn.
  pose proof (decimal_lower _ 0 (FindString_all_digits value) ltac:(lia))
    as H0.
  rewrite (UnmarshalJSON_digit_run d value Hd).
  replace (decimal 0 (FindString value) <=? maxInt64) with true
    by (symmetry; apply Z.leb_le; unfold maxInt64; lia).
  eexists. split; [reflexivity|]. split.
  - apply UnixMilli_small. lia.
  - rewrite UnixNano_time_Unix. unfold Millisecond.
    apply wrap64_small. lia.
Qed.

Lemma UnmarshalJSON_millis_exact_witness :
  has_digit (legacy_date "1488939627017") = true
  /\ decimal 0 (FindString (legacy_date "1488939627017")) <= 9223372036854
  /\ exists t,
      UnmarshalJSON DateTime_zero (Some (JStr (legacy_date "1488939627017")))
        = (mkDateTime t, None)
      /\ UnixMilli t = decimal 0 (FindString (legacy_date "1488939627017"))
      /\ UnixNano t
         = decimal 0 (FindString (legacy_date "1488939627017")) * 1000000.
Proof.
  split; [reflexivity|]. split; [vm_compute; discriminate|].
  apply (UnmarshalJSON_millis_exact DateTime_zero
           (legacy_date "1488939627017")).
  - reflexivity.
  - vm_compute. discriminate.
Defined.

(** X5. For every digit run [n] above 9,223,372,036,854 that still fits
    the 64-bit [int], no error is returned and the product with
    [time.Millisecond] has wrapped: the timestamp lies before the instant
    [n] milliseconds after the epoch, and its milliseconds are not [n]. *)
Theorem UnmarshalJSON_wraps_above (d : DateTime) (value : string) :
  has_digit value = true ->
  9223372036854 < decimal 0 (FindString value) <= maxInt64 ->
  exists t,
    UnmarshalJSON d (Some (JStr value)) = (mkDateTime t, None)
    /\ UnixNano t = wrap64 (decimal 0 (FindString value) * 1000000)
    /\ UnixNano t < decimal 0 (FindString value) * 1000000
    /\ UnixMilli t < decimal 0 (FindString value).
Proof.
  intros Hd [Hlo Hhi].
  rewrite (UnmarshalJSON_digit_run d value Hd).
  replace (decimal 0 (FindString value) <=? maxInt64) with true
    by (symmetry; apply Z.leb_le; exact Hhi).
  set (n := decimal 0 (FindString value)) in *.
  pose proof (wrap64_range (n * 1000000)) as Hw.
  assert (Hn : UnixNano (time_Unix 0 (wrap64 (n * Millisecond)))
               = wrap64 (n * 1000000))
    by (rewrite UnixNano_time_Unix; reflexivity).
  eexists. split; [reflexivity|]. split; [exact Hn|]. split.
  - rewrite Hn. lia.
  - rewrite UnixMilli_of_UnixNano, Hn.
    apply Z.div_lt_upper_bound; lia.
Qed.

Lemma UnmarshalJSON_wraps_above_witness :
  has_digit (legacy_date "9999999999999") = true
  /\ 9223372036854 < decimal 0 (FindString (legacy_date "9999999999999"))
     <= maxInt64
  /\ exists t,
      UnmarshalJSON DateTime_zero (Some (JStr (legacy_date "9999999999999")))
        = (mkDateTime t, None)
      /\ UnixMilli t < decimal 0 (FindString (legacy_date "9999999999999")).
Proof.
  split; [reflexivity|].
  split; [split; [reflexivity | vm_compute; discriminate]|].
  destruct (UnmarshalJSON_wraps_above DateTime_zero
              (legacy_date "9999999999999") eq_refl)
    as (t & Ht & _ & _ & Hm).
  - split; [reflexivity | vm_compute; discriminate].
  - exists t. split; [exact Ht | exact Hm].
Defined.

(** X6. Only the first digit run counts, and the text around it does not
    matter: a run after any text without digits and before any text that
    does not go on with a digit is parsed as the same run in
    [/Date(...)/]. *)
Theorem UnmarshalJSON_permissive (d : DateTime) (pre ds suf : string) :
  has_digit pre = false ->
  all_digits ds = true ->
  ds <> EmptyString ->
  digit_prefix suf = EmptyString ->
  FindString (pre ++ ds ++ suf) = ds
  /\ UnmarshalJSON d (Some (JStr (pre ++ ds ++ suf)))
     = UnmarshalJSON d (Some (JStr (legacy_date ds))).
Proof.
  intros Hp Hd Hne Hs.
  pose proof (FindString_app pre ds suf Hp Hd Hne Hs) as H1.
  pose proof (FindString_app "/Date(" ds ")/" eq_refl Hd Hne eq_refl) as H2.
  split; [exact H1|].
  rewrite (UnmarshalJSON_digit_run d (pre ++ ds ++ suf))
    by (apply has_digit_FindString; congruence).
  unfold legacy_date.
  rewrite (UnmarshalJSON_digit_run d ("/Date(" ++ ds ++ ")/"))
    by (apply has_digit_FindString; congruence).
  rewrite H1, H2. reflexivity.
Qed.

Lemma UnmarshalJSON_permissive_witness :
  FindString ("on " ++ "1488939627017" ++ " ms, 2017") = "1488939627017"
  /\ UnmarshalJSON DateTime_zero
       (Some (JStr ("on " ++ "1488939627017" ++ " ms, 2017")))
     = UnmarshalJSON DateTime_zero
         (Some (JStr (legacy_date "1488939627017"))).
Proof.
  apply (UnmarshalJSON_permissive DateTime_zero "on " "1488939627017"
           " ms, 2017"); try reflexivity.
  discriminate.
Defined.

(** ** Requests *)

(** The endpoint of [path] under [base], as a URL value. *)
Lemma NewRequest_eq {B : Type}
    (json_Encode : B -> error + string) (URL_String : URL -> string)
    (http_NewRequest : string -> string -> string -> error + Request)
    (ctx : option context) (method path : string) (body : option B)
    (s : Store) (b : loc) (base : URL) :
  baseURL (client s) = Some b ->
  urls s !! b = Some base ->
  let ep := with_Path base
              (TrimSuffix (Path base) "/" ++ "/" ++ TrimPrefix path "/") in
  NewRequest json_Encode URL_String http_NewRequest ctx method path body s =
  Returns
    (mkStore (client s) (<[fresh (dom (urls s)) := ep]> (urls s)),
     match (match body with
            | Some b0 => json_Encode b0
            | None => inr EmptyString
            end) with
     | inl err => inl err
     | inr buf =>
       match http_NewRequest method (URL_String ep) buf with
       | inl err => inl err
       | inr req =>
         inr (Header_Add "User-Agent" (userAgent (client s))
                (Header_Add "Accept" mediaType
                   (Header_Add "Content-Type"
                      (mediaType ++ "; charset=" ++ charset)
                      (match ctx with
                       | Some c => WithContext c req
                       | None => req
                       end))))
       end
     end).
Proof.
  intros Hb Hl ep. unfold NewRequest.
  rewrite (GetEndpoint_returns s b base path Hb Hl). fold ep.
  destruct (match body with
            | Some b0 => json_Encode b0
            | None => inr EmptyString
            end) as [err|buf]; [reflexivity|].
  cbn [urls]. rewrite lookup_insert_eq.
  destruct (http_NewRequest method (URL_String ep) buf); reflexivity.
Qed.

(** A returned request, taken apart. *)
Lemma NewRequest_returned {B : Type}
    (json_Encode : B -> error + string) (URL_String : URL -> string)
    (http_NewRequest : string -> string -> string -> error + Request)
    (ctx : option context) (method path : string) (body : option B)
    (s s' : Store) (req : Request) :
  NewRequest json_Encode URL_String http_NewRequest ctx method path body s
    = Returns (s', inr req) ->
  exists url buf req0,
    http_NewRequest method url buf = inr req0
    /\ Header req
       = (Header req0 ++ standard_headers (userAgent (client s)))%list
    /\ ReqCtx req = match ctx with Some c => Some c | None => ReqCtx req0 end
    /\ Method req = Method req0
    /\ ReqURL req = ReqURL req0
    /\ ReqBody req = ReqBody req0.
Proof.
  intros H.
  destruct (baseURL (client s)) as [b|] eqn:Hb;
    [|unfold NewRequest, GetEndpoint in H; rewrite Hb in H; discriminate].
  destruct (urls s !! b) as [base|] eqn:Hl;
    [|unfold NewRequest, GetEndpoint in H; rewrite Hb, Hl in H; discriminate].
  rewrite (NewRequest_eq _ _ _ ctx method path body s b base Hb Hl) in H.
  cbv zeta in H.
  destruct (match body with
            | Some b0 => json_Encode b0
            | None => inr EmptyString
            end) as [err|buf]; [discriminate|].
  destruct (http_NewRequest method _ buf) as [err|req0] eqn:Hm;
    [discriminate|].
  injection H as _ <-.
  eexists _, buf, req0. split; [exact Hm|].
  destruct ctx; cbn; rewrite <- ?app_assoc; auto.
Qed.

(** X7. Every request that [NewRequest] returns is the one that
    [http.NewRequest] made, with the three standard headers added after
    the headers it had, the [User-Agent] being the client's, and with the
    context attached when one was given. This holds with and without a
    body. *)
Theorem NewRequest_decorates {B : Type}
    (json_Encode : B -> error + string) (URL_String : URL -> string)
    (http_NewRequest : string -> string -> string -> error + Request)
    (ctx : option context) (method path : string) (body : option B)
    (s s' : Store) (req : Request) :
  NewRequest json_Encode URL_String http_NewRequest ctx method path body s
    = Returns (s', inr req) ->
  exists url buf req0,
    http_NewRequest method url buf = inr req0
    /\ Header req
       = (Header req0 ++ standard_headers (userAgent (client s)))%list
    /\ ReqCtx req = match ctx with Some c => Some c | None => ReqCtx req0 end
    /\ Method req = Method req0
    /\ ReqURL req = ReqURL req0
    /\ ReqBody req = ReqBody req0.
Proof.
  apply NewRequest_returned.
Qed.

Lemma NewRequest_decorates_witness :
  exists s' req,
    NewRequest encode_text print_url make_request None "GET" "Items"
      (@None string) (store_of base_v1_slash) = Returns (s', inr req)
    /\ exists url buf req0,
        make_request "GET" url buf = inr req0
        /\ Header req
           = (Header req0 ++ standard_headers "go-exactonline")%list.
Proof.
  eexists _, _. split; [vm_compute; reflexivity|].
  destruct (NewRequest_decorates encode_text print_url make_request None
              "GET" "Items" (@None string) (store_of base_v1_slash) _ _
              ltac:(vm_compute; reflexivity))
    as (url & buf & req0 & Hm & Hh & _).
  exists url, buf, req0. split; [exact Hm | exact Hh].
Defined.

(** X8. With a base URL set, [NewRequest] returns an error exactly when
    the body fails to encode, and then with that error, or when the body
    encodes (or is absent) and [http.NewRequest] fails, and then with
    that one. In both cases it returns no request. *)
Theorem NewRequest_error_iff {B : Type}
    (json_Encode : B -> error + string) (URL_String : URL -> string)
    (http_NewRequest : string -> string -> string -> error + Request)
    (ctx : option context) (method path : string) (body : option B)
    (s : Store) (b : loc) (base : URL) (err : error) :
  baseURL (client s) = Some b ->
  urls s !! b = Some base ->
  (exists s',
      NewRequest json_Encode URL_String http_NewRequest ctx method path body
        s = Returns (s', inl err))
  <->
  ((exists b0, body = Some b0 /\ json_Encode b0 = inl err)
   \/ (exists buf,
         match body with
         | Some b0 => json_Encode b0
         | None => inr EmptyString
         end = inr buf
         /\ http_NewRequest method
              (URL_String
                 (with_Path base
                    (TrimSuffix (Path base) "/" ++ "/"
                     ++ TrimPrefix path "/"))) buf = inl err)).
Proof.
  intros Hb Hl.
  rewrite (NewRequest_eq json_Encode URL_String http_NewRequest ctx method
             path body s b base Hb Hl). cbv zeta.
  destruct body as [b0|].
  - destruct (json_Encode b0) as [e|buf] eqn:He.
    + split.
      * intros [s' H]. left. exists b0. split; congruence.
      * intros [(b1 & Hb1 & He1) | (buf & Hbuf & _)]; [|discriminate].
        eexists. repeat f_equal. congruence.
    + destruct (http_NewRequest method _ buf) as [e|req0] eqn:Hm.
      * split.
        -- intros [s' H]. right. exists buf. split; congruence.
        -- intros [(b1 & Hb1 & He1) | (buf' & Hbuf & Hm')]; [congruence|].
           eexists. repeat f_equal. congruence.
      * split.
        -- intros [s' H]. discriminate.
        -- intros [(b1 & Hb1 & He1) | (buf' & Hbuf & Hm')]; congruence.
  - destruct (http_NewRequest method _ EmptyString) as [e|req0] eqn:Hm.
    + split.
      * intros [s' H]. right. exists EmptyString. split; congruence.
      * intros [(b1 & Hb1 & _) | (buf' & Hbuf & Hm')]; [discriminate|].
        eexists. repeat f_equal. congruence.
    + split.
      * intros [s' H]. discriminate.
      * intros [(b1 & Hb1 & _) | (buf' & Hbuf & Hm')];
          [discriminate | congruence].
Qed.

Lemma NewRequest_error_iff_witness :
  exists s',
    NewRequest encode_text print_url make_request None EmptyString "Items"
      (Some "{}") (store_of base_v1_slash)
    = Returns (s', inl (ErrNewRequest "invalid method")).
Proof.
  apply (NewRequest_error_iff encode_text print_url make_request None
           EmptyString "Items" (Some "{}") (store_of base_v1_slash)
           1%positive base_v1_slash (ErrNewRequest "invalid method")
           eq_refl eq_refl).
  right. eexists. split; reflexivity.
Defined.

(** X9. When [http.NewRequest] keeps the method, the URL text and the body
    it is given, the request that [NewRequest] returns has the given
    method, is addressed to the text of the resolved endpoint (the base
    URL with the joined path), and carries the encoded body, or the empty
    body when none was given. *)
Theorem NewRequest_addresses_endpoint {B : Type}
    (json_Encode : B -> error + string) (URL_String : URL -> string)
    (http_NewRequest : string -> string -> string -> error + Request)
    (ctx : option context) (method path : string) (body : option B)
    (s s' : Store) (b : loc) (base : URL) (req : Request) :
  (forall m u bd r, http_NewRequest m u bd = inr r ->
                    Method r = m /\ ReqURL r = u /\ ReqBody r = bd) ->
  baseURL (client s) = Some b ->
  urls s !! b = Some base ->
  NewRequest json_Encode URL_String http_NewRequest ctx method path body s
    = Returns (s', inr req) ->
  Method req = method
  /\ ReqURL req =
     URL_String (with_Path base (TrimSuffix (Path base) "/" ++ "/"
                                 ++ TrimPrefix path "/"))
  /\ match body with
     | Some b0 => json_Encode b0 = inr (ReqBody req)
     | None => ReqBody req = EmptyString
     end.
Proof.
  intros Hk Hb Hl H.
  rewrite (NewRequest_eq _ _ _ ctx method path body s b base Hb Hl) in H.
  cbv zeta in H.
  destruct (match body with
            | Some b0 => json_Encode b0
            | None => inr EmptyString
            end) as [err|buf] eqn:He; [discriminate|].
  destruct (http_NewRequest method _ buf) as [err|req0] eqn:Hm;
    [discriminate|].
  injection H as _ <-.
  destruct (Hk _ _ _ _ Hm) as (H1 & H2 & H3).
  assert (Hbody : match body with
                  | Some b0 => json_Encode b0 = inr (ReqBody req0)
                  | None => ReqBody req0 = EmptyString
                  end)
    by (destruct body; congruence).
  destruct ctx; cbn; auto.
Qed.

Lemma NewRequest_addresses_endpoint_witness :
  exists s' req,
    NewRequest encode_text print_url make_request None "GET" "/Items"
      (@None string) (store_of (base_url "/api/v1" "$top=1"))
    = Returns (s', inr req)
    /\ ReqURL req = "https://start.exactonline.nl/api/v1/Items?$top=1"
    /\ ReqBody req = EmptyString.
Proof.
  assert (Hk : forall m u bd r, make_request m u bd = inr r ->
                 Method r = m /\ ReqURL r = u /\ ReqBody r = bd).
  { intros m u bd r. unfold make_request.
    destruct (String.eqb m EmptyString); [discriminate|].
    intros [= <-]. auto. }
  eexists _, _. split; [vm_compute; reflexivity|].
  destruct (NewRequest_addresses_endpoint encode_text print_url make_request
              None "GET" "/Items" (@None string)
              (store_of (base_url "/api/v1" "$top=1")) _ 1%positive
              (base_url "/api/v1" "$top=1") _ Hk eq_refl eq_refl
              ltac:(vm_compute; reflexivity)) as (_ & Hu & Hbd).
  split; [exact Hu | exact Hbd].
Defined.

(** ** Endpoints and the base URL *)

Lemma append_assoc (x y z : string) : (x ++ y) ++ z = x ++ y ++ z.
Proof.
  induction x as [|a r IH]; [reflexivity|].
  rewrite !append_cons. f_equal. exact IH.
Qed.

(** X10. [GetEndpoint] takes one slash off the end of the base path and
    spares one slash at the start of the relative path, no more: a base
    path that ends with two slashes keeps one of them before the
    separator, and a relative path that starts with two slashes keeps
    both. *)
Theorem GetEndpoint_trims_one_slash (s : Store) (b : loc) (base : URL)
    (stem p rel : string) :
  baseURL (client s) = Some b ->
  urls s !! b = Some base ->
  (Path base = stem ++ "//" ->
   resolved_Path p s = Some (stem ++ "/" ++ "/" ++ TrimPrefix p "/"))
  /\ (p = "//" ++ rel ->
      resolved_Path p s
        = Some (TrimSuffix (Path base) "/" ++ "//" ++ rel)).
Proof.
  intros Hb Hl. rewrite (resolved_Path_eq s b base p Hb Hl). split.
  - intros ->.
    replace (stem ++ "//") with ((stem ++ "/") ++ "/")
      by (rewrite append_assoc; reflexivity).
    rewrite TrimSuffix_app by discriminate.
    rewrite append_assoc. reflexivity.
  - intros ->. change ("//" ++ rel) with ("/" ++ "/" ++ rel).
    rewrite TrimPrefix_slash. reflexivity.
Qed.

Lemma GetEndpoint_trims_one_slash_witness :
  resolved_Path "Items" (store_of (base_url "/api/v1//" EmptyString))
    = Some "/api/v1//Items"
  /\ resolved_Path "//Items" (store_of base_v1) = Some "/api/v1//Items".
Proof.
  split.
  - apply (proj1 (GetEndpoint_trims_one_slash
                    (store_of (base_url "/api/v1//" EmptyString)) 1%positive
                    (base_url "/api/v1//" EmptyString) "/api/v1" "Items"
                    "Items" eq_refl eq_refl)).
    reflexivity.
  - apply (proj2 (GetEndpoint_trims_one_slash (store_of base_v1) 1%positive
                    base_v1 "/api/v1" "//Items" "Items" eq_refl eq_refl)).
    reflexivity.
Defined.

(** X11. [SetBaseURL] keeps the caller's pointer, not a copy of the URL:
    when the caller changes the URL behind it afterwards, the endpoints
    resolved from then on follow the changed URL. *)
Theorem SetBaseURL_keeps_pointer (s : Store) (b : loc) (base base' : URL)
    (p : string) :
  urls s !! b = Some base ->
  resolved_Path p (SetBaseURL (Some b) s)
    = Some (TrimSuffix (Path base) "/" ++ "/" ++ TrimPrefix p "/")
  /\ resolved_Path p (write_URL b base' (SetBaseURL (Some b) s))
    = Some (TrimSuffix (Path base') "/" ++ "/" ++ TrimPrefix p "/").
Proof.
  intros Hl. split.
  - apply (resolved_Path_eq _ b base); [reflexivity | exact Hl].
  - apply (resolved_Path_eq _ b base'); [reflexivity|].
    apply lookup_insert_eq.
Qed.

Lemma SetBaseURL_keeps_pointer_witness :
  resolved_Path "Items"
    (write_URL 1%positive (base_url "/api/v2" EmptyString)
       (SetBaseURL (Some 1%positive) (store_holding base_v1)))
  = Some "/api/v2/Items".
Proof.
  apply (proj2 (SetBaseURL_keeps_pointer (store_holding base_v1)
                  1%positive base_v1 (base_url "/api/v2" EmptyString)
                  "Items" eq_refl)).
Defined.

(** X12. The endpoint that [GetEndpoint] returns is a URL of its own:
    whatever the caller writes to it afterwards, the base URL stays as it
    was and the same path resolves as before. *)
Theorem GetEndpoint_result_is_a_copy (s s' : Store) (b u : loc)
    (base v : URL) (p : string) :
  baseURL (client s) = Some b ->
  urls s !! b = Some base ->
  GetEndpoint p s = Returns (u, s') ->
  u <> b
  /\ urls (write_URL u v s') !! b = Some base
  /\ resolved_Path p (write_URL u v s') = resolved_Path p s.
Proof.
  intros Hb Hl HG.
  rewrite (GetEndpoint_returns s b base p Hb Hl) in HG.
  injection HG as <- <-.
  assert (Hne : fresh (dom (urls s)) <> b).
  { intros E. apply (is_fresh (dom (urls s))). rewrite E.
    apply elem_of_dom. eauto. }
  assert (Hkeep : urls (write_URL (fresh (dom (urls s))) v
                          (mkStore (client s)
                             (<[fresh (dom (urls s)) :=
                                  with_Path base
                                    (TrimSuffix (Path base) "/" ++ "/"
                                     ++ TrimPrefix p "/")]> (urls s))))
                  !! b = Some base).
  { cbn [write_URL urls]. rewrite !lookup_insert_ne by exact Hne. exact Hl. }
  split; [exact Hne|]. split; [exact Hkeep|].
  rewrite (resolved_Path_eq s b base p Hb Hl).
  apply (resolved_Path_eq _ b base); [exact Hb | exact Hkeep].
Qed.

Lemma GetEndpoint_result_is_a_copy_witness :
  exists u s',
    GetEndpoint "Items" (store_of base_v1_slash) = Returns (u, s')
    /\ resolved_Path "Items"
         (write_URL u (base_url "/elsewhere" EmptyString) s')
       = Some "/api/v1/Items".
Proof.
  eexists _, _. split; [vm_compute; reflexivity|].
  destruct (GetEndpoint_result_is_a_copy (store_of base_v1_slash) _
              1%positive _ base_v1_slash
              (base_url "/elsewhere" EmptyString) "Items" eq_refl eq_refl
              ltac:(vm_compute; reflexivity)) as (_ & _ & H).
  rewrite H. vm_compute. reflexivity.
Defined.

(** X13. The user agent of a request is the one set last: after
    [SetUserAgent], whatever else is set in between, every request that
    [NewRequest] returns ends its headers with the three standard ones
    and the new [User-Agent]; the endpoint it resolves is not affected by
    [SetUserAgent] and [SetDebug]. *)
Theorem SetUserAgent_reaches_requests {B : Type}
    (json_Encode : B -> error + string) (URL_String : URL -> string)
    (http_NewRequest : string -> string -> string -> error + Request)
    (ctx : option context) (method path : string) (body : option B)
    (ua ua0 : string) (dbg : bool) (s s' : Store) (req : Request) :
  NewRequest json_Encode URL_String http_NewRequest ctx method path body
    (SetDebug dbg (SetUserAgent ua (SetUserAgent ua0 s)))
    = Returns (s', inr req) ->
  (exists h, Header req = (h ++ standard_headers ua)%list)
  /\ resolved_Path path (SetDebug dbg (SetUserAgent ua (SetUserAgent ua0 s)))
     = resolved_Path path s.
Proof.
  intros H.
  destruct (NewRequest_returned _ _ _ _ _ _ _ _ _ _ H)
    as (url & buf & req0 & _ & Hh & _).
  split; [exists (Header req0); exact Hh|].
  destruct s as [[tr base dbg0 agent hook] m].
  unfold resolved_Path, GetEndpoint, SetDebug, SetUserAgent.
  cbn [client urls baseURL].
  destruct base as [b|]; [|reflexivity].
  destruct (m !! b); reflexivity.
Qed.

Lemma SetUserAgent_reaches_requests_witness :
  exists s' req,
    NewRequest encode_text print_url make_request None "GET" "Items"
      (Some "{}")
      (SetDebug true (SetUserAgent "reporting/2.0"
                        (SetUserAgent "reporting/1.0"
                           (store_of base_v1_slash))))
    = Returns (s', inr req)
    /\ exists h, Header req = (h ++ standard_headers "reporting/2.0")%list.
Proof.
  eexists _, _. split; [vm_compute; reflexivity|].
  apply (SetUserAgent_reaches_requests encode_text print_url make_request
           None "GET" "Items" (Some "{}") "reporting/2.0" "reporting/1.0"
           true (store_of base_v1_slash) _ _ ltac:(vm_compute; reflexivity)).
Defined.

(** ** [Do]: what it leaves besides its results *)

Section DoEffects.

Context {T : Type}.
Variable unmarshal : json -> T -> T * option error.
Variable DumpRequestOut : Request -> string.
Variable DumpResponse : Response -> string.

Abbreviation Do' := (Rest.Do unmarshal DumpRequestOut DumpResponse).

(** X14. When the transport fails, [Do] returns its error as it is and no
    response; the target is not touched, the completion hook is not
    called and nothing is closed. *)
Theorem Do_transport_failure_stops (c : Client) (req : Request)
    (rb : option T) (w : World) (err : error) :
  http c req = inl err ->
  response (Do' c req rb w) = None
  /\ returned (Do' c req rb w) = Some err
  /\ target (Do' c req rb w) = rb
  /\ notified (world (Do' c req rb w)) = notified w
  /\ closes (world (Do' c req rb w)) = closes w.
Proof.
  intros H. unfold Rest.Do. rewrite H.
  destruct (debug c); repeat split; reflexivity.
Qed.

(** X15. When the transport answers, the completion hook, if one is
    registered, is called exactly once, with the request and the response,
    whatever the status of the response and the outcome of the decode; with
    no hook registered nothing is notified. *)
Theorem Do_calls_hook_once (c : Client) (req : Request) (rb : option T)
    (w : World) (resp : Response) :
  http c req = inr resp ->
  notified (world (Do' c req rb w)) =
    (notified w ++ match onRequestCompleted c with
                   | Some f => [f req resp]
                   | None => []
                   end)%list.
Proof.
  intros H. unfold Rest.Do. rewrite H.
  unfold drainBody, deferred_close, Body_Close.
  destruct (debug c), (onRequestCompleted c),
    (data (Body resp)), (closeErr (Body resp)),
    (CheckResponse resp); cbn;
    repeat match goal with
           | |- context [Rest.Decode ?u ?b ?r] =>
             destruct (Rest.Decode u b r)
           end; cbn; rewrite ?app_nil_r; reflexivity.
Qed.

(** X16. [Do] writes to the log only in debug mode: with the flag off the
    log is unchanged, and with it on the call adds the dump of the request
    and, when the transport answered, the dump of the response after it. *)
Theorem Do_logs_in_debug_only (c : Client) (req : Request) (rb : option T)
    (w : World) :
  logged (world (Do' c req rb w)) =
    (logged w ++
     if debug c then
       DumpRequestOut req ::
       match http c req with
       | inr resp => [DumpResponse resp]
       | inl _ => []
       end
     else [])%list.
Proof.
  unfold Rest.Do.
  destruct (http c req) as [err|resp].
  - destruct (debug c); cbn; rewrite ?app_nil_r; reflexivity.
  - unfold drainBody, deferred_close, Body_Close.
    destruct (debug c), (onRequestCompleted c),
      (data (Body resp)), (closeErr (Body resp)),
      (CheckResponse resp); cbn;
      repeat match goal with
             | |- context [Rest.Decode ?u ?b ?r] =>
               destruct (Rest.Decode u b r)
             end; cbn; rewrite <- ?app_assoc, ?app_nil_r; reflexivity.
Qed.

(** X17. With a nil target, and unless the dump of a debug client has
    used up the body, a 2xx body that is an envelope gives exactly the
    error of storing its payload in an empty interface: none, unless the
    payload holds a number out of the range of [float64]. *)
Theorem Do_nil_target_envelope (c : Client) (req : Request) (w : World)
    (resp : Response) (payload : json) :
  http c req = inr resp ->
  CheckResponse resp = None ->
  dump_exhausts c resp = false ->
  data (Body resp) = ReadJSON (envelope payload) ->
  returned (Do' c req None w) = interface_error payload
  /\ target (Do' c req None w) = None
  /\ (interface_error payload = None -> returned (Do' c req None w) = None).
Proof.
  intros Hh Hc Hx Hd.
  destruct (Do_dispatched unmarshal DumpRequestOut DumpResponse c req None w
              resp Hh) as (_ & He & Ht & _).
  rewrite Hc, Hx in He, Ht.
  assert (HD : Rest.Decode unmarshal (Body resp) None
               = (None, interface_error payload)).
  { unfold Rest.Decode. rewrite Hd. reflexivity. }
  rewrite HD in He, Ht. split; [exact He|]. split; [exact Ht|].
  intros Hi. rewrite He. exact Hi.
Qed.


(** X19. Unless the dump of a debug client has used up the body, a 2xx
    body whose [d] member is neither an object nor [null] gives a type
    error for the inner struct, and the target is left as it was, nil or
    not. *)
Theorem Do_d_not_an_object (c : Client) (req : Request) (rb : option T)
    (w : World) (resp : Response) (v : json) :
  http c req = inr resp ->
  CheckResponse resp = None ->
  dump_exhausts c resp = false ->
  data (Body resp) = ReadJSON (JObj [("d", v)]) ->
  v <> JNull ->
  (forall members, v <> JObj members) ->
  returned (Do' c req rb w) = Some (ErrUnmarshalType (kind_name v) "rest.D")
  /\ target (Do' c req rb w) = rb.
Proof.
  intros Hh Hc Hx Hd Hn Ho.
  destruct (Do_dispatched unmarshal DumpRequestOut DumpResponse c req rb w
              resp Hh) as (_ & He & Ht & _).
  rewrite Hc, Hx in He, Ht. rewrite He, Ht.
  unfold Rest.Decode. rewrite Hd.
  destruct v; try (split; reflexivity); [congruence|].
  exfalso. apply (Ho members). reflexivity.
Qed.

End DoEffects.

Lemma Do_transport_failure_stops_witness :
  http (New (refuse "dial tcp")) get_items = inl (ErrTransport "dial tcp")
  /\ returned
       (Do unmarshal_Item dumpRequest dumpResponse (New (refuse "dial tcp"))
           get_items (Some (mkItem 0 0)) World_init)
     = Some (ErrTransport "dial tcp").
Proof.
  split; [reflexivity|].
  apply (Do_transport_failure_stops unmarshal_Item dumpRequest dumpResponse
           (New (refuse "dial tcp")) get_items (Some (mkItem 0 0)) World_init
           (ErrTransport "dial tcp")).
  reflexivity.
Defined.

Lemma Do_calls_hook_once_witness :
  notified
    (world
       (Do unmarshal_Item dumpRequest dumpResponse
           (mkClient (respond (reply 404 ReadMalformed None)) None false
                     EmptyString (Some (fun _ r => "status seen")))
           get_items (Some (mkItem 0 0)) World_init))
  = ["status seen"].
Proof.
  apply (Do_calls_hook_once unmarshal_Item dumpRequest dumpResponse
           (mkClient (respond (reply 404 ReadMalformed None)) None false
                     EmptyString (Some (fun _ r => "status seen")))
           get_items (Some (mkItem 0 0)) World_init
           (reply 404 ReadMalformed None)).
  reflexivity.
Defined.

Lemma Do_nil_target_envelope_witness :
  data (Body (reply 200 (ReadJSON (envelope (JFrac "1e999"))) None))
    = ReadJSON (envelope (JFrac "1e999"))
  /\ returned (run (reply 200 (ReadJSON (envelope (JFrac "1e999"))) None)
                  None)
     = Some (ErrUnmarshalType "number 1e999" "float64")
  /\ returned (run_debug (reply 200 (ReadJSON (envelope item_payload)) None)
                        None)
     = None.
Proof.
  split; [reflexivity|]. split.
  - apply (proj1 (Do_nil_target_envelope unmarshal_Item dumpRequest
                    dumpResponse
                    (New (respond (reply 200
                                     (ReadJSON (envelope (JFrac "1e999")))
                                     None)))
                    get_items World_init
                    (reply 200 (ReadJSON (envelope (JFrac "1e999"))) None)
                    (JFrac "1e999") eq_refl eq_refl eq_refl eq_refl)).
  - apply (Do_nil_target_envelope unmarshal_Item dumpRequest dumpResponse
             (mkClient (respond (reply 200 (ReadJSON (envelope item_payload))
                                       None))
                       None true EmptyString None)
             get_items World_init
             (reply 200 (ReadJSON (envelope item_payload)) None)
             item_payload eq_refl eq_refl eq_refl eq_refl).
    reflexivity.
Defined.


Lemma Do_d_not_an_object_witness :
  returned (run (reply 200 (ReadJSON (JObj [("d", JArr [item_payload])]))
                       None)
                (Some (mkItem 0 0)))
  = Some (ErrUnmarshalType "array" "rest.D").
Proof.
  apply (Do_d_not_an_object unmarshal_Item dumpRequest dumpResponse
           (New (respond (reply 200
                            (ReadJSON (JObj [("d", JArr [item_payload])]))
                            None)))
           get_items (Some (mkItem 0 0)) World_init
           (reply 200 (ReadJSON (JObj [("d", JArr [item_payload])])) None)
           (JArr [item_payload])); try reflexivity; discriminate.
Defined.
